(** * OctreeIntersection: a view's intersection with one octree level

    Shallow embedding of
    [napari/layers/image/experimental/octree_intersection.py].

    Conventions of the embedding.
    - numpy [float64] and [float32] values are modelled as exact rationals
      ([Q]): no rounding, no NaN, no infinities; divisors are assumed
      positive wherever a quotient matters.  Equality of coordinates is
      [Qeq] ([==]) unless both sides are produced by the same computation.
      [Binary64.tile_range] is [tile_range] once more, on the kernel's
      binary64 floats and with Python's mixing of [int] and [float]: it
      shows where rounding makes the code depart from exact arithmetic.
    - Python [int] values are [Z].
    - Python objects that are shared and mutated (numpy buffers, the tile
      grid of a level, the [OctreeChunk] objects) live in an explicit
      [Store]; a reference is an index into the store, and object identity
      is equality of references.
    - A method that reads or writes the store is a computation in the monad
      [M]; a Python exception is the result [Raise]. *)

From Stdlib Require Import ZArith QArith Qminmax Qround Lia List.
From Stdlib Require PrimFloat FloatOps SpecFloat Uint63.
From stdpp Require Import base option list.
Import ListNotations.

(** ** Python primitives *)

Module Py.

(** [min(a, b)]: [b] when [b < a], otherwise [a]. *)
Definition min (a b : Q) : Q := Qmin a b.

(** [max(a, b)]: [b] when [b > a], otherwise [a]. *)
Definition max (a b : Q) : Q := Qmax a b.

(** [int(x)] on a float truncates toward zero. *)
Definition int (x : Q) : Z := Z.quot (Qnum x) (Z.pos (Qden x)).

(** [range(start, stop)] (step 1). *)
Record range := Range { start : Z; stop : Z }.

(** The integers a [for] loop over the range visits, in order. *)
Definition elements (r : range) : list Z :=
  List.map (fun k => (start r + Z.of_nat k)%Z)
           (List.seq 0 (Z.to_nat (stop r - start r))).

(** Exceptions the modelled code can raise.  [DanglingReference] is the
    outcome of following a reference that is not in the store; a Python
    program cannot hold one, the case only makes the model total. *)
Inductive exn := IndexError | DanglingReference.

Inductive result (A : Type) :=
| Ok (a : A)
| Raise (e : exn).
Arguments Ok {A} a.
Arguments Raise {A} e.

(** [l[i]] for a Python list: negative indices count from the end. *)
Definition getitem {A} (l : list A) (i : Z) : option A :=
  if (i <? 0)%Z
  then if (- i <=? Z.of_nat (length l))%Z
       then l !! Z.to_nat (Z.of_nat (length l) + i)
       else None
  else l !! Z.to_nat i.

(** The position in the list that index [i] denotes. *)
Definition position {A} (l : list A) (i : Z) : nat :=
  if (i <? 0)%Z then Z.to_nat (Z.of_nat (length l) + i) else Z.to_nat i.

End Py.

(** ** numpy arrays of the shape the module uses *)

(** [Float2]: a length-2 float vector, [[x, y]]. *)
Definition Float2 : Type := Q * Q.

(** A 2x2 array: two corner points, each [(row, col)]. *)
Definition Corners : Type := Float2 * Float2.

(** [a[:, k]]: column [k] of a 2x2 array, as values. *)
Definition column (k : nat) (a : Corners) : Float2 :=
  match k with
  | O => (fst (fst a), fst (snd a))
  | _ => (snd (fst a), snd (snd a))
  end.

(** Write [v] into column [k] of [a]. *)
Definition set_column (k : nat) (v : Float2) (a : Corners) : Corners :=
  match k with
  | O => ((fst v, snd (fst a)), (snd v, snd (snd a)))
  | _ => ((fst (fst a), fst v), (fst (snd a), snd v))
  end.

(** [np.clip(x, lo, hi)], element-wise [minimum(maximum(x, lo), hi)]. *)
Definition clip (x lo hi : Q) : Q := Qmin (Qmax x lo) hi.

Definition clip2 (v : Float2) (lo hi : Q) : Float2 :=
  (clip (fst v) lo hi, clip (snd v) lo hi).

(** [v / d] on a length-2 vector. *)
Definition div2 (v : Float2) (d : Q) : Float2 := (fst v / d, snd v / d)%Q.

(** ** Level descriptors *)

(** Modelled from the spec: [ImageConfig] is declared outside this module;
    the fields read here are [base_shape] (pair of positive integers) and
    [tile_size] (positive integer). *)
Record ImageConfig := {
  base_shape : Z * Z;
  tile_size : Z
}.

(** Modelled from the spec: [OctreeLevelInfo] is declared in
    [octree_level.py]; the fields read here are [image_config],
    [level_index], [scale] (positive float) and [shape_in_tiles]. *)
Record OctreeLevelInfo := {
  image_config : ImageConfig;
  level_index : Z;
  scale : Q;
  shape_in_tiles : Z * Z
}.

(** ** tile_range *)

Definition _clamp (val min_val max_val : Q) : Q :=
  Py.max (Py.min val max_val) min_val.

Definition tile_range (info : OctreeLevelInfo) (span : Float2) (num_tiles : Z)
  : Py.range :=
  let tile_size := inject_Z (tile_size (image_config info)) in
  let span_tiles := (fst span / tile_size, snd span / tile_size)%Q in
  let clamped :=
    (_clamp (fst span_tiles) 0 (inject_Z (num_tiles - 1)),
     (_clamp (snd span_tiles) 0 (inject_Z (num_tiles - 1)) + 1)%Q) in
  Py.Range (Py.int (fst clamped)) (Py.int (snd clamped)).

Definition row_range (info : OctreeLevelInfo) (span : Float2) : Py.range :=
  let tile_rows := fst (shape_in_tiles info) in
  tile_range info span tile_rows.

Definition column_range (info : OctreeLevelInfo) (span : Float2) : Py.range :=
  let tile_cols := snd (shape_in_tiles info) in
  tile_range info span tile_cols.

(** ** tile_range in binary64 *)

Module Binary64.
Import PrimFloat SpecFloat.

(** A Python number: an [int], or a [float] (numpy [float64]). *)
Inductive number :=
| Int (z : Z)
| Float (f : float).

(** [float(z)], exact for [|z| < 2^53]. *)
Definition of_Z (z : Z) : float :=
  if (z <? 0)%Z then opp (of_uint63 (Uint63.of_Z (- z)))
  else of_uint63 (Uint63.of_Z z).

Definition to_float (a : number) : float :=
  match a with
  | Int z => of_Z z
  | Float f => f
  end.

(** [a < b]; an [int] meeting a [float] is converted first. *)
Definition lt (a b : number) : bool :=
  match a, b with
  | Int x, Int y => (x <? y)%Z
  | _, _ => ltb (to_float a) (to_float b)
  end.

(** [min(a, b)]: [b] when [b < a], otherwise [a]. *)
Definition min (a b : number) : number := if lt b a then b else a.

(** [max(a, b)]: [b] when [b > a], otherwise [a]. *)
Definition max (a b : number) : number := if lt a b then b else a.

(** [a + 1]: exact on an [int], rounded on a [float]. *)
Definition plus_one (a : number) : number :=
  match a with
  | Int z => Int (z + 1)
  | Float f => Float (add f (of_Z 1))
  end.

(** [int(f)] on a float: truncation toward zero; raises on NaN and on an
    infinity ([None]). *)
Definition truncate (f : float) : option Z :=
  match FloatOps.Prim2SF f with
  | S754_zero _ => Some 0%Z
  | S754_finite s m e =>
      let v := if (0 <=? e)%Z then (Z.pos m * 2 ^ e)%Z
               else (Z.pos m / 2 ^ (- e))%Z in
      Some (if s then (- v)%Z else v)
  | _ => None
  end.

Definition int (a : number) : option Z :=
  match a with
  | Int z => Some z
  | Float f => truncate f
  end.


Definition _clamp (val min_val max_val : number) : number :=
  max (min val max_val) min_val.

Definition tile_range (info : OctreeLevelInfo) (span : float * float)
    (num_tiles : Z) : option Py.range :=
  let tile_size := Int (tile_size (image_config info)) in
  let span_tiles :=
    (Float (div (fst span) (to_float tile_size)),
     Float (div (snd span) (to_float tile_size))) in
  let clamped :=
    (_clamp (fst span_tiles) (Int 0) (Int (num_tiles - 1)),
     plus_one (_clamp (snd span_tiles) (Int 0) (Int (num_tiles - 1)))) in
  match int (fst clamped), int (snd clamped) with
  | Some start, Some stop => Some (Py.Range start stop)
  | _, _ => None
  end.

End Binary64.

(** ** Chunk objects *)

Definition ref : Type := nat.

(** Modelled from the spec: [OctreeLocation], [OctreeChunkGeom] and
    [OctreeChunk] are declared in [octree_util.py]; they are built here
    from their constructor arguments, in the order the module passes them. *)
Record OctreeLocation := {
  loc_slice_id : Z;
  loc_level_index : Z;
  loc_row : Z;
  loc_col : Z
}.

Record OctreeChunkGeom := {
  geom_pos : Float2;
  geom_scale : Float2
}.

Record OctreeChunk (D : Type) := {
  chunk_data : D;
  chunk_location : OctreeLocation;
  chunk_geom : OctreeChunkGeom
}.
Arguments Build_OctreeChunk {D} _ _ _.
Arguments chunk_data {D} _.
Arguments chunk_location {D} _.
Arguments chunk_geom {D} _.

(** A cell of [level.tiles]: the original data, or (a reference to) the
    [OctreeChunk] that replaced it.  [isinstance(data, OctreeChunk)] is the
    test on the constructor. *)
Inductive Tile (D : Type) :=
| RawData (d : D)
| Chunk (r : ref).
Arguments RawData {D} d.
Arguments Chunk {D} r.

Abbreviation TileGrid D := (list (list (Tile D))).

(** ** The store *)

Record Store (D : Type) := {
  arrays : list Corners;          (* numpy buffers *)
  grids : list (TileGrid D);      (* the [tiles] list of each level *)
  heap : list (OctreeChunk D)     (* OctreeChunk objects *)
}.
Arguments Build_Store {D} _ _ _.
Arguments arrays {D} _.
Arguments grids {D} _.
Arguments heap {D} _.

(** An [OctreeLevel] object: immutable [info], and the mutable [tiles]. *)
Record OctreeLevel := {
  info : OctreeLevelInfo;
  tiles : ref
}.

(** A numpy view [a[:, axis]] onto the buffer [view_base]. *)
Record View := {
  view_base : ref;
  view_axis : nat
}.

Record OctreeIntersection := {
  level : OctreeLevel;
  corners_2d : ref;
  rows : View;
  cols : View;
  normalized_range : Float2 * Float2;
  _row_range : Py.range;
  _col_range : Py.range
}.

(** ** The monad of store-passing computations with exceptions *)

Section Monad.
Context {D : Type}.

Definition M (A : Type) : Type := Store D -> Py.result A * Store D.

Definition ret {A} (a : A) : M A := fun s => (Py.Ok a, s).

Definition bind {A B} (m : M A) (k : A -> M B) : M B :=
  fun s =>
    match m s with
    | (Py.Ok a, s') => k a s'
    | (Py.Raise e, s') => (Py.Raise e, s')
    end.
End Monad.
Arguments M D A : clear implicits.

Notation "'let*' x ':=' m 'in' k" := (bind m (fun x => k))
  (at level 10, x name, m at level 100, k at level 200).

Section Operations.
Context {D : Type}.

(** *** numpy buffers *)

(** [a.copy()] *)
Definition ndarray_copy (a : ref) : M D ref :=
  fun s =>
    match arrays s !! a with
    | Some c =>
        (Py.Ok (length (arrays s)),
         Build_Store (arrays s ++ [c]) (grids s) (heap s))
    | None => (Py.Raise Py.DanglingReference, s)
    end.

(** Reading the two elements of a view. *)
Definition view_read (v : View) : M D Float2 :=
  fun s =>
    match arrays s !! view_base v with
    | Some c => (Py.Ok (column (view_axis v) c), s)
    | None => (Py.Raise Py.DanglingReference, s)
    end.

(** [v /= d]: in-place division, written through to the base buffer. *)
Definition view_idiv (v : View) (d : Q) : M D unit :=
  fun s =>
    match arrays s !! view_base v with
    | Some c =>
        let c' := set_column (view_axis v)
                             (div2 (column (view_axis v) c) d) c in
        (Py.Ok tt,
         Build_Store (<[view_base v := c']> (arrays s)) (grids s) (heap s))
    | None => (Py.Raise Py.DanglingReference, s)
    end.

(** *** __init__ *)

Definition __init__ (level : OctreeLevel) (corners_2d : ref)
  : M D OctreeIntersection :=
  let* self_corners_2d := ndarray_copy corners_2d in
  let info := info level in
  let self_rows := Build_View self_corners_2d 0 in
  let self_cols := Build_View self_corners_2d 1 in
  let base := base_shape (image_config info) in
  let* r := view_read self_rows in
  let* c := view_read self_cols in
  let self_normalized_range :=
    (clip2 (div2 r (inject_Z (fst base))) 0 1,
     clip2 (div2 c (inject_Z (snd base))) 0 1) in
  let* _ := view_idiv self_rows (scale info) in
  let* _ := view_idiv self_cols (scale info) in
  let* r' := view_read self_rows in
  let self_row_range := row_range info r' in
  let* c' := view_read self_cols in
  let self_col_range := column_range info c' in
  ret {| level := level;
         corners_2d := self_corners_2d;
         rows := self_rows;
         cols := self_cols;
         normalized_range := self_normalized_range;
         _row_range := self_row_range;
         _col_range := self_col_range |}.

(** *** is_visible *)

Definition _inside (value : Z) (value_range : Py.range) : bool :=
  (Py.start value_range <=? value)%Z && (value <? Py.stop value_range)%Z.

Definition is_visible (self : OctreeIntersection) (row col : Z) : bool :=
  _inside row (_row_range self) && _inside col (_col_range self).

(** *** The tile grid *)

(** [level.tiles[row][col]] *)
Definition tiles_getitem (g : ref) (row col : Z) : M D (Tile D) :=
  fun s =>
    match grids s !! g with
    | None => (Py.Raise Py.DanglingReference, s)
    | Some grid =>
        match Py.getitem grid row with
        | None => (Py.Raise Py.IndexError, s)
        | Some line =>
            match Py.getitem line col with
            | None => (Py.Raise Py.IndexError, s)
            | Some t => (Py.Ok t, s)
            end
        end
    end.

(** [level.tiles[row][col] = t] *)
Definition tiles_setitem (g : ref) (row col : Z) (t : Tile D) : M D unit :=
  fun s =>
    match grids s !! g with
    | None => (Py.Raise Py.DanglingReference, s)
    | Some grid =>
        match Py.getitem grid row with
        | None => (Py.Raise Py.IndexError, s)
        | Some line =>
            match Py.getitem line col with
            | None => (Py.Raise Py.IndexError, s)
            | Some _ =>
                let line' := <[Py.position line col := t]> line in
                let grid' := <[Py.position grid row := line']> grid in
                (Py.Ok tt,
                 Build_Store (arrays s) (<[g := grid']> (grids s)) (heap s))
            end
        end
    end.

(** [OctreeChunk(data, location, geom)]: a new object. *)
Definition new_chunk (c : OctreeChunk D) : M D ref :=
  fun s =>
    (Py.Ok (length (heap s)),
     Build_Store (arrays s) (grids s) (heap s ++ [c])).

(** *** get_chunks *)

(** The body of the inner loop, up to [chunks.append]: the chunk for
    the tile [(row, col)], with [(x, y)] the running position. *)
Definition chunk_at (self : OctreeIntersection) (slice_id : Z)
    (scale_vec : Float2) (y : Q) (row : Z) (x : Q) (col : Z) : M D ref :=
  let level_index := level_index (info (level self)) in
  let* data := tiles_getitem (tiles (level self)) row col in
  match data with
  | Chunk r => ret r
  | RawData d =>
      let location :=
        {| loc_slice_id := slice_id; loc_level_index := level_index;
           loc_row := row; loc_col := col |} in
      let pos := (x, y) in
      let geom := {| geom_pos := pos; geom_scale := scale_vec |} in
      let* chunk := new_chunk (Build_OctreeChunk d location geom) in
      let* _ := tiles_setitem (tiles (level self)) row col (Chunk chunk) in
      ret chunk
  end.

(** [for col in self._col_range: ...; x += scaled_size] *)
Fixpoint for_cols (self : OctreeIntersection) (slice_id : Z)
    (scale_vec : Float2) (scaled_size : Q) (y : Q) (row : Z)
    (cs : list Z) (x : Q) (chunks : list ref) : M D (list ref) :=
  match cs with
  | [] => ret chunks
  | col :: cs' =>
      let* chunk := chunk_at self slice_id scale_vec y row x col in
      for_cols self slice_id scale_vec scaled_size y row cs'
               (x + scaled_size)%Q (chunks ++ [chunk])
  end.

(** [for row in self._row_range: x = ...; <inner loop>; y += scaled_size] *)
Fixpoint for_rows (self : OctreeIntersection) (slice_id : Z)
    (scale_vec : Float2) (scaled_size : Q)
    (rs : list Z) (y : Q) (chunks : list ref) : M D (list ref) :=
  match rs with
  | [] => ret chunks
  | row :: rs' =>
      let x := (inject_Z (Py.start (_col_range self)) * scaled_size)%Q in
      let* chunks' :=
        for_cols self slice_id scale_vec scaled_size y row
                 (Py.elements (_col_range self)) x chunks in
      for_rows self slice_id scale_vec scaled_size rs'
               (y + scaled_size)%Q chunks'
  end.

Definition get_chunks (self : OctreeIntersection) (slice_id : Z)
  : M D (list ref) :=
  let chunks := [] in
  let level_info := info (level self) in
  let scale := scale level_info in
  let scale_vec := (scale, scale) in
  let tile_size := inject_Z (tile_size (image_config level_info)) in
  let scaled_size := (tile_size * scale)%Q in
  let y := (inject_Z (Py.start (_row_range self)) * scaled_size)%Q in
  for_rows self slice_id scale_vec scaled_size
           (Py.elements (_row_range self)) y chunks.

(** *** Sequences of calls on one intersection *)

Inductive call :=
| Call_is_visible (row col : Z)
| Call_get_chunks (slice_id : Z).

(** The store after one call (whether or not it raised). *)
Definition run_call (self : OctreeIntersection) (s : Store D) (c : call)
  : Store D :=
  match c with
  | Call_is_visible row col =>
      let _ := is_visible self row col in s
  | Call_get_chunks slice_id => snd (get_chunks self slice_id s)
  end.

Definition run_calls (self : OctreeIntersection) (cs : list call)
    (s : Store D) : Store D :=
  fold_left (run_call self) cs s.

End Operations.

(** ** Notions used to state the properties *)

(** [i in r] for a Python range. *)
Definition in_range (i : Z) (r : Py.range) : Prop :=
  (Py.start r <= i < Py.stop r)%Z.


(** What [level.tiles[row][col]] evaluates to in a store, when it does. *)
Definition tile_at {D} (s : Store D) (g : ref) (row col : Z)
  : option (Tile D) :=
  match grids s !! g with
  | None => None
  | Some grid =>
      match Py.getitem grid row with
      | None => None
      | Some line => Py.getitem line col
      end
  end.

(** The life of one cell of the tile grid between two stores: it is
    unchanged, or it went from raw data to a chunk. *)
Inductive tile_step {D} : option (Tile D) -> option (Tile D) -> Prop :=
| tile_same (o : option (Tile D)) : tile_step o o
| tile_materialized (d : D) (r : ref) :
    tile_step (Some (RawData d)) (Some (Chunk r)).

(** One store evolves into another: numpy buffers untouched, every cell of
    every grid takes a [tile_step], chunk objects are only added. *)
Record evolves {D} (s s' : Store D) : Prop := {
  evolves_arrays : arrays s' = arrays s;
  evolves_tiles :
    forall g row col, tile_step (tile_at s g row col) (tile_at s' g row col);
  evolves_heap : exists new, heap s' = heap s ++ new
}.

(** The tiles [get_chunks] visits, in the order it visits them. *)
Definition visited (self : OctreeIntersection) : list (Z * Z) :=
  flat_map (fun row => List.map (fun col => (row, col))
                                (Py.elements (_col_range self)))
           (Py.elements (_row_range self)).

(** Each visited tile of grid [g] holds the chunk listed for it. *)
Definition holds_chunks {D} (s : Store D) (g : ref)
    (cells : list (Z * Z)) (chunks : list ref) : Prop :=
  Forall2 (fun cell r => tile_at s g (fst cell) (snd cell) = Some (Chunk r))
          cells chunks.

(** [i] is a valid index of the Python list [l]. *)
Definition valid_index {A} (l : list A) (i : Z) : bool :=
  (- Z.of_nat (length l) <=? i)%Z && (i <? Z.of_nat (length l))%Z.

(** Any later [get_chunks] calls on the store, by any intersections and
    for any slices; a call that raises leaves the store as it left it. *)
Definition run_get_chunks {D} (calls : list (OctreeIntersection * Z))
    (s : Store D) : Store D :=
  fold_left (fun s c => snd (get_chunks (fst c) (snd c) s)) calls s.

(** The tile grid of a level matches [shape_in_tiles]. *)
Definition grid_matches {D} (grid : TileGrid D) (shape : Z * Z) : Prop :=
  Z.of_nat (length grid) = fst shape /\
  Forall (fun line => Z.of_nat (length line) = snd shape) grid.

(** [x] is an integer multiple of [m]. *)
Definition multiple_of (m x : Q) : Prop := exists k : Z, (x == inject_Z k * m)%Q.

(** ** The concrete scenario: base image 1000 x 1000, level scale 2.0,
    tile size 100, 5 x 5 tiles, viewport corners [[0,0],[250,250]] *)

Definition scenario_info (level_index : Z) : OctreeLevelInfo :=
  {| image_config := {| base_shape := (1000, 1000)%Z; tile_size := 100 |};
     level_index := level_index;
     scale := 2;
     shape_in_tiles := (5, 5)%Z |}.

Definition scenario_level (level_index : Z) : OctreeLevel :=
  {| info := scenario_info level_index; tiles := 0%nat |}.

(** A grid of untouched tiles, tile [(r, c)] holding [payload r c]. *)
Definition raw_grid {D} (rows cols : nat) (payload : nat -> nat -> D)
  : TileGrid D :=
  List.map (fun r => List.map (fun c => RawData (payload r c)) (List.seq 0 cols))
           (List.seq 0 rows).

(** The caller's corners are buffer 0, the level's tiles are grid 0. *)
Definition scenario_store {D} (payload : nat -> nat -> D) : Store D :=
  Build_Store [((0, 0), (250, 250))%Q] [raw_grid 5 5 payload] [].

(** The four entries of [normalized_range]. *)
Definition components (nr : Float2 * Float2) : list Q :=
  [fst (fst nr); snd (fst nr); fst (snd nr); snd (snd nr)].

(** The intersection of the scenario, written out. *)
Definition scenario_view : OctreeIntersection :=
  {| level := scenario_level 1;
     corners_2d := 1%nat;
     rows := Build_View 1 0;
     cols := Build_View 1 1;
     normalized_range := ((0, 1 # 4), (0, 1 # 4))%Q;
     _row_range := Py.Range 0 2;
     _col_range := Py.Range 0 2 |}.

(** A store whose caller's corners describe a zero-area viewport. *)
Definition point_store : Store unit :=
  Build_Store [((100, 100), (100, 100))%Q] [raw_grid 5 5 (fun _ _ => tt)] [].

(** The chunk objects that exist in [s1] but not in [s] were each built by
    [get_chunks]' loop body for one of [cells]: the tile held raw data in
    [s] and holds the chunk in [s1]; the chunk wraps that data, is located
    at [(slice_id, level_index, row, col)], scaled by [scale_vec] and placed
    at [(col, row)] times [scaled_size]. *)
Definition built_from {D} (self : OctreeIntersection) (slice_id : Z)
    (scale_vec : Float2) (scaled_size : Q) (s s1 : Store D)
    (cells : list (Z * Z)) : Prop :=
  forall (r : ref) (ch : OctreeChunk D),
    (length (heap s) <= r)%nat -> heap s1 !! r = Some ch ->
    exists row col d,
      In (row, col) cells /\
      tile_at s (tiles (level self)) row col = Some (RawData d) /\
      tile_at s1 (tiles (level self)) row col = Some (Chunk r) /\
      chunk_data ch = d /\
      chunk_location ch =
      {| loc_slice_id := slice_id;
         loc_level_index := level_index (info (level self));
         loc_row := row; loc_col := col |} /\
      geom_scale (chunk_geom ch) = scale_vec /\
      (fst (geom_pos (chunk_geom ch)) == inject_Z col * scaled_size)%Q /\
      (snd (geom_pos (chunk_geom ch)) == inject_Z row * scaled_size)%Q.

(** [n] consecutive integers from [first + j]. *)
Definition consecutive (first : Z) (j n : nat) : list Z :=
  List.map (fun k => (first + Z.of_nat k)%Z) (List.seq j n).

(** Every chunk reference held by a grid cell is a live chunk object. *)
Definition chunks_allocated {D} (s : Store D) : Prop :=
  forall g row col r,
    tile_at s g row col = Some (Chunk r) -> (r < length (heap s))%nat.

(** No chunk object is held by two different cells (cells named by
    non-negative indices, so that each cell has one name). *)
Definition chunks_distinct {D} (s : Store D) : Prop :=
  forall g row col g' row' col' r,
    (0 <= row)%Z -> (0 <= col)%Z -> (0 <= row')%Z -> (0 <= col')%Z ->
    tile_at s g row col = Some (Chunk r) ->
    tile_at s g' row' col' = Some (Chunk r) ->
    (g, row, col) = (g', row', col').

(** The scenario's level seen through a view moved by one tile, and
    through a view with an empty row range. *)
Definition shifted_view : OctreeIntersection :=
  {| level := scenario_level 1;
     corners_2d := 2%nat;
     rows := Build_View 2 0;
     cols := Build_View 2 1;
     normalized_range := ((1 # 5, 1 # 2), (1 # 5, 1 # 2))%Q;
     _row_range := Py.Range 1 3;
     _col_range := Py.Range 1 3 |}.

Definition empty_view : OctreeIntersection :=
  {| level := scenario_level 1;
     corners_2d := 2%nat;
     rows := Build_View 2 0;
     cols := Build_View 2 1;
     normalized_range := ((1 # 4, 1 # 10), (0, 1 # 4))%Q;
     _row_range := Py.Range 2 2;
     _col_range := Py.Range 0 2 |}.

(** * Properties *)

(** ** Truncation and clamping *)

Section Arithmetic.
Local Open Scope Q_scope.

Lemma int_floor (x : Q) : 0 <= x -> Py.int x = Qfloor x.
Proof.
  destruct x as [n d]; unfold Qle, Py.int; simpl; intros H.
  apply Z.quot_div_nonneg; lia.
Qed.

Lemma Qfloor_spec (x : Q) (z : Z) :
  inject_Z z <= x -> x < inject_Z (z + 1) -> Qfloor x = z.
Proof.
  intros Hlo Hhi.
  pose proof (Qfloor_le x) as Hf.
  pose proof (Qlt_floor x) as Hg.
  assert (H1 : (z < Qfloor x + 1)%Z).
  { rewrite Zlt_Qlt. eapply Qle_lt_trans; eassumption. }
  assert (H2 : (Qfloor x < z + 1)%Z).
  { rewrite Zlt_Qlt. eapply Qle_lt_trans; eassumption. }
  lia.
Qed.

Lemma Qfloor_succ (x : Q) : Qfloor (x + 1) = (Qfloor x + 1)%Z.
Proof.
  apply Qfloor_spec.
  - rewrite inject_Z_plus. apply Qplus_le_compat; [apply Qfloor_le|].
    apply Qle_refl.
  - rewrite inject_Z_plus. apply Qplus_lt_le_compat; [apply Qlt_floor|].
    apply Qle_refl.
Qed.

Lemma Qfloor_ge (x : Q) (z : Z) : (z <= Qfloor x)%Z <-> inject_Z z <= x.
Proof.
  split; intros H.
  - eapply Qle_trans; [|apply Qfloor_le]. now rewrite <- Zle_Qle.
  - rewrite <- (Qfloor_Z z). now apply Qfloor_resp_le.
Qed.

Lemma Qfloor_lt (x : Q) (z : Z) : (Qfloor x < z)%Z <-> x < inject_Z z.
Proof.
  split; intros H.
  - eapply Qlt_le_trans; [apply Qlt_floor|]. rewrite <- Zle_Qle. lia.
  - rewrite Zlt_Qlt. eapply Qle_lt_trans; [apply Qfloor_le|exact H].
Qed.

(** [_clamp] stays between its bounds, whatever the value. *)
Lemma clamp_bounds (v lo hi : Q) :
  lo <= hi -> lo <= _clamp v lo hi /\ _clamp v lo hi <= hi.
Proof.
  intros H. unfold _clamp, Py.max, Py.min. split.
  - apply Q.le_max_r.
  - apply Q.max_lub; [apply Q.le_min_r | exact H].
Qed.

Lemma clamp_mono (v w lo hi : Q) :
  v <= w -> _clamp v lo hi <= _clamp w lo hi.
Proof.
  intros H. unfold _clamp, Py.max, Py.min.
  apply Q.max_le_compat_r. now apply Q.min_le_compat_r.
Qed.

Lemma clamp_below (v lo hi : Q) : lo <= hi -> v <= lo -> _clamp v lo hi == lo.
Proof.
  intros Hb H. unfold _clamp, Py.max, Py.min.
  apply Q.max_r. eapply Qle_trans; [apply Q.le_min_l | exact H].
Qed.

Lemma clamp_above (v lo hi : Q) : lo <= hi -> hi <= v -> _clamp v lo hi == hi.
Proof.
  intros Hb H. unfold _clamp, Py.max, Py.min.
  rewrite (Q.min_r v hi H). now apply Q.max_l.
Qed.

Lemma clamp_le_self (v lo hi : Q) : lo <= v -> _clamp v lo hi <= v.
Proof.
  intros H. unfold _clamp, Py.max, Py.min.
  apply Q.max_lub; [apply Q.le_min_l | exact H].
Qed.

(** The start and stop of [tile_range] as floors of the clamped
    tile-space coordinates. *)
Lemma tile_range_start (info : OctreeLevelInfo) (span : Float2) (n : Z) :
  (1 <= n)%Z ->
  Py.start (tile_range info span n) =
  Qfloor (_clamp (fst span / inject_Z (tile_size (image_config info)))
                 0 (inject_Z (n - 1))).
Proof.
  intros Hn. unfold tile_range; simpl.
  apply int_floor. apply clamp_bounds.
  change 0 with (inject_Z 0). rewrite <- Zle_Qle. lia.
Qed.

Lemma tile_range_stop (info : OctreeLevelInfo) (span : Float2) (n : Z) :
  (1 <= n)%Z ->
  Py.stop (tile_range info span n) =
  (Qfloor (_clamp (snd span / inject_Z (tile_size (image_config info)))
                  0 (inject_Z (n - 1))) + 1)%Z.
Proof.
  intros Hn. unfold tile_range; simpl.
  assert (Hb : 0 <= inject_Z (n - 1)).
  { change 0 with (inject_Z 0). rewrite <- Zle_Qle. lia. }
  rewrite int_floor.
  - apply Qfloor_succ.
  - apply Qle_trans with (0 + 1); [discriminate|].
    apply Qplus_le_compat; [|apply Qle_refl].
    now apply clamp_bounds.
Qed.

(** Inside the valid interval the clamp does not change the tile. *)
Lemma Qfloor_clamp_inside (t : Q) (n : Z) :
  0 <= t -> t < inject_Z n ->
  Qfloor (_clamp t 0 (inject_Z (n - 1))) = Qfloor t.
Proof.
  intros H0 Hn.
  assert (Hf : (Qfloor t < n)%Z) by now apply Qfloor_lt.
  apply Qfloor_spec.
  - unfold _clamp, Py.max, Py.min.
    eapply Qle_trans; [|apply Q.le_max_l].
    apply Q.min_glb; [apply Qfloor_le|].
    rewrite <- Zle_Qle. lia.
  - eapply Qle_lt_trans; [apply clamp_le_self; exact H0|].
    apply Qlt_floor.
Qed.

End Arithmetic.

(** ** tile_range *)

Section TileRange.
Local Open Scope Q_scope.
Variable info : OctreeLevelInfo.
Local Abbreviation ts := (tile_size (image_config info)).

Lemma tile_size_Q_pos : (0 < ts)%Z -> 0 < inject_Z ts.
Proof. intros H. change 0 with (inject_Z 0). now rewrite <- Zlt_Qlt. Qed.

Lemma div_tile_size_mono (a b : Q) :
  (0 < ts)%Z -> a <= b -> a / inject_Z ts <= b / inject_Z ts.
Proof.
  intros Hts H. unfold Qdiv. apply Qmult_le_compat_r; [exact H|].
  apply Qinv_le_0_compat, Qlt_le_weak, tile_size_Q_pos, Hts.
Qed.



Lemma tiles_bound_nonneg (n : Z) : (1 <= n)%Z -> 0 <= inject_Z (n - 1).
Proof. intros H. change 0 with (inject_Z 0). rewrite <- Zle_Qle. lia. Qed.

Lemma tile_range_bounds (span : Float2) (num_tiles : Z) :
  (1 <= num_tiles)%Z ->
  (0 <= Py.start (tile_range info span num_tiles))%Z /\
  (Py.stop (tile_range info span num_tiles) <= num_tiles)%Z.
Proof.
  intros Hn. assert (Hb := tiles_bound_nonneg num_tiles Hn). split.
  - rewrite tile_range_start by exact Hn. apply Qfloor_ge.
    now apply clamp_bounds.
  - rewrite tile_range_stop by exact Hn.
    enough (Qfloor (_clamp (snd span / inject_Z ts) 0 (inject_Z (num_tiles - 1)))
            < num_tiles)%Z by lia.
    apply Qfloor_lt. eapply Qle_lt_trans; [now apply clamp_bounds|].
    rewrite <- Zlt_Qlt. lia.
Qed.

(** C2: for a span with [span[0] <= span[1]], a positive tile size and a
    positive number of tiles, the range returned by [tile_range] lies
    within [[0, num_tiles)]: its start is at least 0, its stop at most
    [num_tiles], and so is every index it contains. *)
Theorem tile_range_within_grid (span : Float2) (num_tiles : Z) :
  fst span <= snd span -> (0 < ts)%Z -> (0 < num_tiles)%Z ->
  (0 <= Py.start (tile_range info span num_tiles))%Z /\
  (Py.stop (tile_range info span num_tiles) <= num_tiles)%Z /\
  forall i, in_range i (tile_range info span num_tiles) ->
            (0 <= i < num_tiles)%Z.
Proof.
  intros _ _ Hn.
  destruct (tile_range_bounds span num_tiles ltac:(lia)) as [Hs He].
  split; [exact Hs|]. split; [exact He|].
  unfold in_range. intros i Hi. lia.
Qed.

(** C3: a span entirely below the valid interval
    [[0, num_tiles * tile_size)] yields the range [{0}], a span entirely
    above it the range [{num_tiles - 1}]; neither is empty. *)
Theorem tile_range_outside_clamps_to_edge (span : Float2) (num_tiles : Z) :
  fst span <= snd span -> (0 < ts)%Z -> (0 < num_tiles)%Z ->
  (snd span < 0 ->
   tile_range info span num_tiles = Py.Range 0 1 /\
   Py.elements (tile_range info span num_tiles) = [0%Z]) /\
  (inject_Z num_tiles * inject_Z ts <= fst span ->
   tile_range info span num_tiles = Py.Range (num_tiles - 1) num_tiles /\
   Py.elements (tile_range info span num_tiles) = [(num_tiles - 1)%Z]).
Proof.
  intros Hspan Hts Hn.
  assert (Hb := tiles_bound_nonneg num_tiles ltac:(lia)).
  assert (Hq := tile_size_Q_pos Hts).
  assert (Heta : forall r : Py.range, r = Py.Range (Py.start r) (Py.stop r))
    by now intros [].
  split.
  - intros Hlow.
    assert (H1 : snd span / inject_Z ts <= 0).
    { apply Qle_shift_div_r; [exact Hq|]. rewrite Qmult_0_l.
      now apply Qlt_le_weak. }
    assert (H0 : fst span / inject_Z ts <= 0).
    { eapply Qle_trans; [apply div_tile_size_mono; eassumption | exact H1]. }
    assert (E : tile_range info span num_tiles = Py.Range 0 1).
    { rewrite (Heta (tile_range info span num_tiles)).
      rewrite tile_range_start, tile_range_stop by lia.
      rewrite (Qfloor_comp _ _ (clamp_below _ _ _ Hb H0)).
      rewrite (Qfloor_comp _ _ (clamp_below _ _ _ Hb H1)).
      reflexivity. }
    split; [exact E | now rewrite E].
  - intros Hhigh.
    assert (H0 : inject_Z num_tiles <= fst span / inject_Z ts).
    { now apply Qle_shift_div_l. }
    assert (H1 : inject_Z num_tiles <= snd span / inject_Z ts).
    { eapply Qle_trans; [exact H0 | now apply div_tile_size_mono]. }
    assert (Hlt : inject_Z (num_tiles - 1) <= inject_Z num_tiles).
    { rewrite <- Zle_Qle. lia. }
    assert (E : tile_range info span num_tiles
                = Py.Range (num_tiles - 1) num_tiles).
    { rewrite (Heta (tile_range info span num_tiles)).
      rewrite tile_range_start, tile_range_stop by lia.
      rewrite (Qfloor_comp _ _ (clamp_above _ _ _ Hb (Qle_trans _ _ _ Hlt H0))).
      rewrite (Qfloor_comp _ _ (clamp_above _ _ _ Hb (Qle_trans _ _ _ Hlt H1))).
      rewrite Qfloor_Z. f_equal. lia. }
    split; [exact E|]. rewrite E. unfold Py.elements; simpl.
    replace (num_tiles - (num_tiles - 1))%Z with 1%Z by lia.
    simpl. f_equal. lia.
Qed.

End TileRange.

Section TileRangeCover.
Local Open Scope Q_scope.
Variable info : OctreeLevelInfo.
Local Abbreviation ts := (tile_size (image_config info)).




End TileRangeCover.


(** ** Python list indexing *)

Section Indexing.
Context {A : Type}.
Implicit Types (l : list A) (i j : Z).

Lemma getitem_position l i :
  Py.getitem l i = if valid_index l i then l !! Py.position l i else None.
Proof.
  unfold Py.getitem, Py.position, valid_index.
  destruct (Z.ltb_spec i 0); destruct (Z.leb_spec (- i) (Z.of_nat (length l)));
    destruct (Z.leb_spec (- Z.of_nat (length l)) i);
    destruct (Z.ltb_spec i (Z.of_nat (length l))); simpl;
    try reflexivity; try lia.
  apply lookup_ge_None. lia.
Qed.

Lemma getitem_Some l i x :
  Py.getitem l i = Some x ->
  valid_index l i = true /\ l !! Py.position l i = Some x.
Proof.
  rewrite getitem_position. destruct (valid_index l i); [auto | discriminate].
Qed.

Lemma getitem_in_range l i :
  (0 <= i < Z.of_nat (length l))%Z -> is_Some (Py.getitem l i).
Proof.
  intros H. unfold Py.getitem.
  destruct (Z.ltb_spec i 0); [lia|].
  apply lookup_lt_is_Some. lia.
Qed.

(** Reading after [l[i] = x]. *)
Lemma getitem_insert l i j x :
  Py.getitem (<[Py.position l i := x]> l) j =
  match Py.getitem l j with
  | None => None
  | Some y => if decide (Py.position l j = Py.position l i)
              then Some x else Some y
  end.
Proof.
  rewrite !getitem_position.
  assert (Hv : valid_index (<[Py.position l i := x]> l) j = valid_index l j)
    by (unfold valid_index; now rewrite length_insert).
  assert (Hp : Py.position (<[Py.position l i := x]> l) j = Py.position l j)
    by (unfold Py.position; now rewrite length_insert).
  rewrite Hv, Hp. destruct (valid_index l j); [|reflexivity].
  destruct (l !! Py.position l j) as [y|] eqn:E.
  - destruct (decide (Py.position l j = Py.position l i)) as [Heq|Hne].
    + rewrite Heq. apply list_lookup_insert_eq.
      rewrite <- Heq. eapply lookup_lt_Some; eassumption.
    + rewrite list_lookup_insert_ne by congruence. exact E.
  - apply lookup_ge_None. rewrite length_insert.
    now apply lookup_ge_None.
Qed.

End Indexing.

(** ** The tile grid under get_chunks *)

Section TileGridLemmas.
Context {D : Type}.
Implicit Types (s : Store D) (g : ref) (row col : Z) (o : option (Tile D)).

Lemma tile_step_trans o1 o2 o3 :
  tile_step o1 o2 -> tile_step o2 o3 -> tile_step o1 o3.
Proof.
  intros H12 H23. destruct H12; [exact H23|].
  inversion H23; subst; constructor.
Qed.

Lemma tile_step_chunk o r : tile_step (Some (Chunk r)) o -> o = Some (Chunk r).
Proof. intros H. now inversion H. Qed.

Lemma tile_step_is_Some o o' : tile_step o o' -> is_Some o -> is_Some o'.
Proof. intros [] H; [exact H | eauto]. Qed.

Lemma evolves_refl s : evolves s s.
Proof. split; [reflexivity | constructor | exists []; now rewrite app_nil_r]. Qed.

Lemma evolves_trans s1 s2 s3 : evolves s1 s2 -> evolves s2 s3 -> evolves s1 s3.
Proof.
  intros [A1 T1 [n1 H1]] [A2 T2 [n2 H2]]. split.
  - congruence.
  - intros g row col. eapply tile_step_trans; [apply T1 | apply T2].
  - exists (n1 ++ n2). now rewrite H2, H1, app_assoc.
Qed.

Lemma holds_chunks_evolves s s' g cells chunks :
  evolves s s' -> holds_chunks s g cells chunks -> holds_chunks s' g cells chunks.
Proof.
  intros He H. unfold holds_chunks in *.
  induction H as [|cell r cells chunks Hc _ IH]; constructor; [|exact IH].
  apply tile_step_chunk. rewrite <- Hc. apply He.
Qed.

Lemma tiles_getitem_spec g row col s :
  match tile_at s g row col with
  | Some t => tiles_getitem g row col s = (Py.Ok t, s)
  | None => exists e, tiles_getitem g row col s = (Py.Raise e, s)
  end.
Proof.
  unfold tile_at, tiles_getitem.
  destruct (grids s !! g) as [grid|]; [|eauto].
  destruct (Py.getitem grid row) as [line|]; [|eauto].
  destruct (Py.getitem line col) as [t|]; eauto.
Qed.

(** Writing a chunk over a cell: the cell now reads as the chunk, and every
    other cell reads as before. *)
Lemma tiles_setitem_spec g row col s (old t : Tile D) :
  tile_at s g row col = Some old ->
  exists s',
    tiles_setitem g row col t s = (Py.Ok tt, s') /\
    arrays s' = arrays s /\ heap s' = heap s /\
    tile_at s' g row col = Some t /\
    forall g' row' col',
      tile_at s' g' row' col' = tile_at s g' row' col' \/
      (tile_at s g' row' col' = Some old /\ tile_at s' g' row' col' = Some t).
Proof.
  unfold tile_at, tiles_setitem.
  destruct (grids s !! g) as [grid|] eqn:Eg; [|discriminate].
  destruct (Py.getitem grid row) as [line|] eqn:Er; [|discriminate].
  intros Ec. rewrite Ec. eexists. split; [reflexivity|]. simpl.
  assert (Hg : (g < length (grids s))%nat) by (eapply lookup_lt_Some; eauto).
  split; [reflexivity|]. split; [reflexivity|]. split.
  - rewrite list_lookup_insert_eq by exact Hg.
    rewrite getitem_insert, Er. rewrite decide_True by reflexivity.
    rewrite getitem_insert, Ec. now rewrite decide_True.
  - intros g' row' col'.
    destruct (decide (g = g')) as [<-|Hne];
      [|rewrite list_lookup_insert_ne by exact Hne; now left].
    rewrite list_lookup_insert_eq by exact Hg. rewrite Eg.
    rewrite getitem_insert.
    destruct (Py.getitem grid row') as [line2|] eqn:Er'; [|now left].
    destruct (decide (Py.position grid row' = Py.position grid row))
      as [Hp|Hp]; [|now left].
    assert (line2 = line) as ->.
    { apply getitem_Some in Er as [_ Er], Er' as [_ Er']. congruence. }
    rewrite getitem_insert.
    destruct (Py.getitem line col') as [y|] eqn:Ec'; [|now left].
    destruct (decide (Py.position line col' = Py.position line col))
      as [Hq|Hq]; [|now left].
    right. split; [|reflexivity].
    apply getitem_Some in Ec as [_ Ec], Ec' as [_ Ec']. congruence.
Qed.

Lemma tile_at_new_chunk s g row col (c : OctreeChunk D) :
  tile_at (snd (new_chunk c s)) g row col = tile_at s g row col.
Proof. reflexivity. Qed.

(** What one pass of the loop body does, by the state of the tile. *)
Lemma chunk_at_spec self slice_id scale_vec y row x col s :
  match tile_at s (tiles (level self)) row col with
  | Some (Chunk r) =>
      chunk_at self slice_id scale_vec y row x col s = (Py.Ok r, s)
  | Some (RawData d) =>
      exists s',
        chunk_at self slice_id scale_vec y row x col s
        = (Py.Ok (length (heap s)), s') /\
        evolves s s' /\
        tile_at s' (tiles (level self)) row col = Some (Chunk (length (heap s))) /\
        heap s' =
        heap s ++
        [Build_OctreeChunk d
           {| loc_slice_id := slice_id;
              loc_level_index := level_index (info (level self));
              loc_row := row; loc_col := col |}
           {| geom_pos := (x, y); geom_scale := scale_vec |}]
  | None =>
      exists e, chunk_at self slice_id scale_vec y row x col s = (Py.Raise e, s)
  end.
Proof.
  pose proof (tiles_getitem_spec (tiles (level self)) row col s) as Hget.
  unfold chunk_at, bind.
  destruct (tile_at s (tiles (level self)) row col) as [[d|r]|] eqn:Et.
  - rewrite Hget.
    set (c := Build_OctreeChunk d _ _).
    destruct (tiles_setitem_spec (tiles (level self)) row col
                (snd (new_chunk c s)) (RawData d) (Chunk (length (heap s))))
      as (s' & Hset & Ha & Hh & Hnew & Hothers).
    { rewrite tile_at_new_chunk. exact Et. }
    exists s'. simpl in *. rewrite Hset. simpl.
    split; [reflexivity|]. split; [|split; [exact Hnew | exact Hh]].
    split.
    + exact Ha.
    + intros g' row' col'.
      destruct (Hothers g' row' col') as [E | [E1 E2]].
      * rewrite E. change (tile_at _ g' row' col') with (tile_at s g' row' col').
        constructor.
      * change (tile_at _ g' row' col') with (tile_at s g' row' col') in E1.
        rewrite E1, E2. constructor.
    + eexists. exact Hh.
  - rewrite Hget. reflexivity.
  - destruct Hget as [e He]. exists e. now rewrite He.
Qed.

Lemma chunk_at_evolves self slice_id scale_vec y row x col s :
  evolves s (snd (chunk_at self slice_id scale_vec y row x col s)).
Proof.
  pose proof (chunk_at_spec self slice_id scale_vec y row x col s) as H.
  destruct (tile_at s (tiles (level self)) row col) as [[d|r]|].
  - destruct H as (s' & -> & He & _). exact He.
  - rewrite H. apply evolves_refl.
  - destruct H as [e ->]. apply evolves_refl.
Qed.

Lemma chunk_at_Ok self slice_id scale_vec y row x col s r s' :
  chunk_at self slice_id scale_vec y row x col s = (Py.Ok r, s') ->
  tile_at s' (tiles (level self)) row col = Some (Chunk r).
Proof.
  pose proof (chunk_at_spec self slice_id scale_vec y row x col s) as H.
  destruct (tile_at s (tiles (level self)) row col) as [[d|r0]|] eqn:Et.
  - destruct H as (s1 & -> & _ & Hnew & _). intros [= <- <-]. exact Hnew.
  - rewrite H. intros [= <- <-]. exact Et.
  - destruct H as [e ->]. discriminate.
Qed.

Lemma chunk_at_settled self slice_id scale_vec y row x col s r :
  tile_at s (tiles (level self)) row col = Some (Chunk r) ->
  chunk_at self slice_id scale_vec y row x col s = (Py.Ok r, s).
Proof.
  intros Et.
  pose proof (chunk_at_spec self slice_id scale_vec y row x col s) as H.
  now rewrite Et in H.
Qed.

Lemma chunk_at_total self slice_id scale_vec y row x col s :
  is_Some (tile_at s (tiles (level self)) row col) ->
  exists r s', chunk_at self slice_id scale_vec y row x col s = (Py.Ok r, s').
Proof.
  intros [t Et].
  pose proof (chunk_at_spec self slice_id scale_vec y row x col s) as H.
  rewrite Et in H. destruct t as [d|r].
  - destruct H as (s' & H & _). eauto.
  - eauto.
Qed.

End TileGridLemmas.

(** ** The loops of get_chunks *)

Section Loops.
Context {D : Type}.
Variables (self : OctreeIntersection) (slice_id : Z).
Variables (scale_vec : Float2) (scaled_size : Q).
Implicit Types (s : Store D) (chunks : list ref).
Local Abbreviation g := (tiles (level self)).

Lemma for_cols_evolves y row cs x chunks s :
  evolves s (snd (for_cols self slice_id scale_vec scaled_size y row cs x chunks s)).
Proof.
  revert x chunks s. induction cs as [|col cs IH]; intros x chunks s; simpl.
  - apply evolves_refl.
  - unfold bind.
    pose proof (chunk_at_evolves self slice_id scale_vec y row x col s) as He.
    destruct (chunk_at self slice_id scale_vec y row x col s) as [[r|e] s1];
      [|exact He].
    eapply evolves_trans; [exact He | apply IH].
Qed.

Lemma for_cols_Ok y row cs x chunks s out s' :
  for_cols self slice_id scale_vec scaled_size y row cs x chunks s
  = (Py.Ok out, s') ->
  exists new, out = chunks ++ new /\
              holds_chunks s' g (List.map (fun col => (row, col)) cs) new.
Proof.
  revert x chunks s. induction cs as [|col cs IH]; intros x chunks s; simpl.
  - intros [= <- <-]. exists []. split; [now rewrite app_nil_r | constructor].
  - unfold bind.
    destruct (chunk_at self slice_id scale_vec y row x col s) as [[r|e] s1] eqn:E;
      [|discriminate].
    intros Hrest.
    pose proof (for_cols_evolves y row cs (x + scaled_size)%Q
                                 (chunks ++ [r]) s1) as He.
    rewrite Hrest in He. simpl in He.
    apply IH in Hrest as (new & -> & Hnew).
    exists (r :: new). split; [now rewrite <- app_assoc|].
    constructor; [|exact Hnew]. simpl.
    apply tile_step_chunk. rewrite <- (chunk_at_Ok _ _ _ _ _ _ _ _ _ _ E).
    apply He.
Qed.

Lemma for_cols_settled y row cs x chunks s new :
  holds_chunks s g (List.map (fun col => (row, col)) cs) new ->
  for_cols self slice_id scale_vec scaled_size y row cs x chunks s
  = (Py.Ok (chunks ++ new), s).
Proof.
  revert x chunks new. induction cs as [|col cs IH]; intros x chunks new H;
    simpl in *; inversion H; subst.
  - now rewrite app_nil_r.
  - unfold bind. simpl in *.
    erewrite chunk_at_settled by eassumption.
    erewrite IH by eassumption. now rewrite <- app_assoc.
Qed.

Lemma for_cols_total y row cs x chunks s :
  Forall (fun col => is_Some (tile_at s g row col)) cs ->
  exists out s',
    for_cols self slice_id scale_vec scaled_size y row cs x chunks s
    = (Py.Ok out, s') /\
    length out = (length chunks + length cs)%nat.
Proof.
  revert x chunks s. induction cs as [|col cs IH]; intros x chunks s H; simpl.
  - exists chunks, s. split; [reflexivity | lia].
  - inversion H as [|? ? Hcol Hcs]; subst. unfold bind.
    destruct (chunk_at_total self slice_id scale_vec y row x col s Hcol)
      as (r & s1 & E).
    pose proof (chunk_at_evolves self slice_id scale_vec y row x col s) as He.
    rewrite E in *. simpl in He.
    destruct (IH (x + scaled_size)%Q (chunks ++ [r]) s1) as (out & s' & Hrun & Hlen).
    { eapply Forall_impl; [exact Hcs|]. intros col'.
      apply tile_step_is_Some, He. }
    exists out, s'. split; [exact Hrun|].
    rewrite Hlen, length_app. simpl. lia.
Qed.

Lemma for_rows_evolves rs y chunks s :
  evolves s (snd (for_rows self slice_id scale_vec scaled_size rs y chunks s)).
Proof.
  revert y chunks s. induction rs as [|row rs IH]; intros y chunks s; simpl.
  - apply evolves_refl.
  - unfold bind.
    match goal with |- context [for_cols ?a ?b ?c ?d ?e ?f ?h ?i ?j s] =>
      pose proof (for_cols_evolves e f h i j s) as He;
      destruct (for_cols a b c d e f h i j s) as [[out|e'] s1] end;
      [|exact He].
    eapply evolves_trans; [exact He | apply IH].
Qed.

Lemma for_rows_Ok rs y chunks s out s' :
  for_rows self slice_id scale_vec scaled_size rs y chunks s = (Py.Ok out, s') ->
  exists new,
    out = chunks ++ new /\
    holds_chunks s' g
      (flat_map (fun row => List.map (fun col => (row, col))
                                     (Py.elements (_col_range self))) rs)
      new.
Proof.
  revert y chunks s. induction rs as [|row rs IH]; intros y chunks s; simpl.
  - intros [= <- <-]. exists []. split; [now rewrite app_nil_r | constructor].
  - unfold bind.
    match goal with |- context [for_cols ?a ?b ?c ?d ?e ?f ?h ?i ?j s] =>
      destruct (for_cols a b c d e f h i j s) as [[mid|e'] s1] eqn:E end;
      [|discriminate].
    intros Hrest.
    pose proof (for_rows_evolves rs (y + scaled_size)%Q mid s1) as He.
    rewrite Hrest in He. simpl in He.
    apply for_cols_Ok in E as (new1 & -> & H1).
    apply IH in Hrest as (new2 & -> & H2).
    exists (new1 ++ new2). split; [now rewrite app_assoc|].
    apply Forall2_app; [|exact H2].
    eapply holds_chunks_evolves; eassumption.
Qed.

Lemma for_rows_settled rs y chunks s new :
  holds_chunks s g
    (flat_map (fun row => List.map (fun col => (row, col))
                                   (Py.elements (_col_range self))) rs)
    new ->
  for_rows self slice_id scale_vec scaled_size rs y chunks s
  = (Py.Ok (chunks ++ new), s).
Proof.
  revert y chunks new. induction rs as [|row rs IH]; intros y chunks new H;
    simpl in *.
  - inversion H; subst. now rewrite app_nil_r.
  - apply Forall2_app_inv_l in H as (new1 & new2 & H1 & H2 & ->).
    unfold bind. erewrite for_cols_settled by exact H1.
    erewrite IH by exact H2. now rewrite app_assoc.
Qed.

Lemma for_rows_total rs y chunks s :
  Forall (fun row =>
            Forall (fun col => is_Some (tile_at s g row col))
                   (Py.elements (_col_range self))) rs ->
  exists out s',
    for_rows self slice_id scale_vec scaled_size rs y chunks s = (Py.Ok out, s') /\
    length out
    = (length chunks + length rs * length (Py.elements (_col_range self)))%nat.
Proof.
  revert y chunks s. induction rs as [|row rs IH]; intros y chunks s H; simpl.
  - exists chunks, s. split; [reflexivity | lia].
  - inversion H as [|? ? Hrow Hrs]; subst. unfold bind.
    match goal with |- context [for_cols ?a ?b ?c ?d ?e ?f ?h ?i ?j s] =>
      destruct (for_cols_total e f h i j s Hrow) as (mid & s1 & E & Hlen);
      pose proof (for_cols_evolves e f h i j s) as He end.
    rewrite E in *. simpl in He.
    destruct (IH (y + scaled_size)%Q mid s1) as (out & s' & Hrun & Hlen').
    { eapply Forall_impl; [exact Hrs|]. intros row' Hr'.
      eapply Forall_impl; [exact Hr'|]. intros col'.
      apply tile_step_is_Some, He. }
    exists out, s'. split; [exact Hrun|]. rewrite Hlen', Hlen. lia.
Qed.

End Loops.

(** ** get_chunks *)

Lemma elements_in_range (i : Z) (r : Py.range) :
  In i (Py.elements r) <-> in_range i r.
Proof.
  unfold Py.elements, in_range. rewrite in_map_iff. split.
  - intros (k & <- & Hk). apply in_seq in Hk. lia.
  - intros H. exists (Z.to_nat (i - Py.start r)). split; [lia|].
    apply in_seq. lia.
Qed.

Lemma length_elements (r : Py.range) :
  length (Py.elements r) = Z.to_nat (Py.stop r - Py.start r).
Proof. unfold Py.elements. now rewrite length_map, length_seq. Qed.

Section GetChunks.
Context {D : Type}.
Implicit Types (s : Store D) (self : OctreeIntersection) (slice_id : Z).

Lemma get_chunks_evolves self slice_id s :
  evolves s (snd (get_chunks self slice_id s)).
Proof. apply for_rows_evolves. Qed.

Lemma get_chunks_Ok self slice_id s chunks s' :
  get_chunks self slice_id s = (Py.Ok chunks, s') ->
  holds_chunks s' (tiles (level self)) (visited self) chunks.
Proof.
  intros H. apply for_rows_Ok in H as (new & -> & H). exact H.
Qed.

Lemma get_chunks_settled self slice_id s chunks :
  holds_chunks s (tiles (level self)) (visited self) chunks ->
  get_chunks self slice_id s = (Py.Ok chunks, s).
Proof.
  intros H. unfold get_chunks.
  erewrite for_rows_settled by exact H. reflexivity.
Qed.

Lemma get_chunks_total self slice_id s :
  (forall row col, in_range row (_row_range self) ->
                   in_range col (_col_range self) ->
                   is_Some (tile_at s (tiles (level self)) row col)) ->
  exists chunks s',
    get_chunks self slice_id s = (Py.Ok chunks, s') /\
    length chunks
    = (length (Py.elements (_row_range self))
       * length (Py.elements (_col_range self)))%nat.
Proof.
  intros H. unfold get_chunks.
  apply for_rows_total.
  apply List.Forall_forall. intros row Hrow.
  apply List.Forall_forall. intros col Hcol.
  apply H; apply elements_in_range; assumption.
Qed.

Lemma run_get_chunks_evolves calls s : evolves s (run_get_chunks calls s).
Proof.
  revert s. induction calls as [|c calls IH]; intros s; simpl.
  - apply evolves_refl.
  - eapply evolves_trans; [apply get_chunks_evolves | apply IH].
Qed.

Lemma visited_in_range self row col :
  In (row, col) (visited self) <->
  in_range row (_row_range self) /\ in_range col (_col_range self).
Proof.
  unfold visited. rewrite in_flat_map. split.
  - intros (row' & Hrow & Hcol). apply in_map_iff in Hcol as (col' & E & Hcol).
    injection E as -> ->. split; apply elements_in_range; assumption.
  - intros [Hrow Hcol]. exists row. split; [now apply elements_in_range|].
    apply in_map_iff. exists col. split; [reflexivity|].
    now apply elements_in_range.
Qed.

Lemma holds_chunks_In s g cells chunks cell :
  holds_chunks s g cells chunks -> In cell cells ->
  exists r, In r chunks /\ tile_at s g (fst cell) (snd cell) = Some (Chunk r).
Proof.
  intros H. induction H as [|cell' r cells chunks Hc _ IH]; intros Hin.
  - destruct Hin.
  - destruct Hin as [->|Hin].
    + exists r. split; [now left | exact Hc].
    + destruct (IH Hin) as (r' & Hr' & Ht). exists r'. split; [now right | exact Ht].
Qed.

(** C1: a call to [get_chunks] moves every cell of every grid by at most
    one step, from raw data to a chunk and never back; the chunks it
    returns are the objects it left in the visited cells, one for every
    [(row, col)] of the ranges; calling it again, at once or after any
    other [get_chunks] calls on the store, returns the identical objects
    and changes nothing: no chunk is built twice. *)
Theorem get_chunks_materializes_once self slice_id s chunks s1 :
  get_chunks self slice_id s = (Py.Ok chunks, s1) ->
  (forall g row col, tile_step (tile_at s g row col) (tile_at s1 g row col)) /\
  holds_chunks s1 (tiles (level self)) (visited self) chunks /\
  (forall row col,
      in_range row (_row_range self) -> in_range col (_col_range self) ->
      exists r, In r chunks /\
                tile_at s1 (tiles (level self)) row col = Some (Chunk r)) /\
  get_chunks self slice_id s1 = (Py.Ok chunks, s1) /\
  forall later,
    let s2 := run_get_chunks later s1 in
    (forall g row col r, tile_at s1 g row col = Some (Chunk r) ->
                         tile_at s2 g row col = Some (Chunk r)) /\
    get_chunks self slice_id s2 = (Py.Ok chunks, s2).
Proof.
  intros Hrun.
  pose proof (get_chunks_evolves self slice_id s) as He.
  rewrite Hrun in He. simpl in He.
  pose proof (get_chunks_Ok _ _ _ _ _ Hrun) as Hheld.
  split; [apply He|]. split; [exact Hheld|].
  split.
  { intros row col Hrow Hcol.
    apply (holds_chunks_In _ _ _ _ (row, col) Hheld).
    now apply visited_in_range. }
  split; [now apply get_chunks_settled|].
  intros later s2. pose proof (run_get_chunks_evolves later s1) as He2.
  fold s2 in He2. split.
  - intros g row col r Hr. apply tile_step_chunk. rewrite <- Hr. apply He2.
  - apply get_chunks_settled. eapply holds_chunks_evolves; eassumption.
Qed.

End GetChunks.

(** ** is_visible *)

Lemma inside_in_range (value : Z) (r : Py.range) :
  _inside value r = true <-> in_range value r.
Proof.
  unfold _inside, in_range.
  rewrite andb_true_iff, Z.leb_le, Z.ltb_lt. reflexivity.
Qed.

Lemma inside_below (r : Py.range) : _inside (Py.start r - 1) r = false.
Proof.
  unfold _inside. apply andb_false_iff. left. apply Z.leb_gt. lia.
Qed.

Lemma inside_at_stop (r : Py.range) : _inside (Py.stop r) r = false.
Proof.
  unfold _inside. apply andb_false_iff. right. apply Z.ltb_ge. lia.
Qed.

Lemma is_visible_iff (self : OctreeIntersection) (row col : Z) :
  is_visible self row col = true <->
  in_range row (_row_range self) /\ in_range col (_col_range self).
Proof.
  unfold is_visible. rewrite andb_true_iff, !inside_in_range. reflexivity.
Qed.

(** C6: [is_visible(row, col)] is true exactly when [row] is in the row
    range and [col] in the column range, both half-open; it is false one
    step below the start and at the stop of either axis, whatever the other
    coordinate; and a call leaves the store as it was. *)
Theorem is_visible_half_open (self : OctreeIntersection) (row col : Z) :
  (is_visible self row col = true <->
   in_range row (_row_range self) /\ in_range col (_col_range self)) /\
  is_visible self (Py.start (_row_range self) - 1) col = false /\
  is_visible self (Py.stop (_row_range self)) col = false /\
  is_visible self row (Py.start (_col_range self) - 1) = false /\
  is_visible self row (Py.stop (_col_range self)) = false /\
  forall (D : Type) (s : Store D),
    run_call self s (Call_is_visible row col) = s.
Proof.
  split; [apply is_visible_iff|].
  unfold is_visible.
  split; [now rewrite inside_below|].
  split; [now rewrite inside_at_stop|].
  split; [rewrite inside_below; apply andb_false_r|].
  split; [rewrite inside_at_stop; apply andb_false_r|].
  reflexivity.
Qed.

(** ** __init__ *)

Section Init.
Context {D : Type}.
Implicit Types (s : Store D) (level : OctreeLevel) (a : ref) (c : Corners).

Lemma bind_Ok {A B} (m : M D A) (k : A -> M D B) s (x : A) s' :
  m s = (Py.Ok x, s') -> bind m k s = k x s'.
Proof. intros H. unfold bind. now rewrite H. Qed.

Lemma ndarray_copy_spec a s c :
  arrays s !! a = Some c ->
  ndarray_copy a s =
  (Py.Ok (length (arrays s)),
   Build_Store (arrays s ++ [c]) (grids s) (heap s)).
Proof. intros H. unfold ndarray_copy. now rewrite H. Qed.

Lemma view_read_spec (v : View) s c :
  arrays s !! view_base v = Some c ->
  view_read v s = (Py.Ok (column (view_axis v) c), s).
Proof. intros H. unfold view_read. now rewrite H. Qed.

Lemma view_idiv_spec (v : View) (d : Q) s c :
  arrays s !! view_base v = Some c ->
  view_idiv v d s =
  (Py.Ok tt,
   Build_Store
     (<[view_base v := set_column (view_axis v)
                                  (div2 (column (view_axis v) c) d) c]>
        (arrays s))
     (grids s) (heap s)).
Proof. intros H. unfold view_idiv. now rewrite H. Qed.

(** The buffer [self.corners_2d] after both in-place divisions. *)
Lemma column_scaled c (d : Q) :
  let c1 := set_column 0 (div2 (column 0 c) d) c in
  let c2 := set_column 1 (div2 (column 1 c1) d) c1 in
  column 0 c1 = div2 (column 0 c) d /\
  column 0 c2 = div2 (column 0 c) d /\
  column 1 c2 = div2 (column 1 c) d.
Proof. destruct c as [[r0 c0] [r1 c1]]. repeat split. Qed.

(** The intersection [__init__] builds and the store it leaves, given the
    contents [c] of the caller's array. *)
Lemma init_spec level a s c :
  arrays s !! a = Some c ->
  let n := length (arrays s) in
  let c1 := set_column 0 (div2 (column 0 c) (scale (info level))) c in
  let c2 := set_column 1 (div2 (column 1 c1) (scale (info level))) c1 in
  __init__ level a s =
  (Py.Ok
     {| level := level;
        corners_2d := n;
        rows := Build_View n 0;
        cols := Build_View n 1;
        normalized_range :=
          (clip2 (div2 (column 0 c)
                       (inject_Z (fst (base_shape (image_config (info level))))))
                 0 1,
           clip2 (div2 (column 1 c)
                       (inject_Z (snd (base_shape (image_config (info level))))))
                 0 1);
        _row_range :=
          row_range (info level) (div2 (column 0 c) (scale (info level)));
        _col_range :=
          column_range (info level) (div2 (column 1 c) (scale (info level)))
     |},
   Build_Store (arrays s ++ [c2]) (grids s) (heap s)).
Proof.
  intros Ha n c1 c2.
  destruct (column_scaled c (scale (info level))) as (E1 & E2 & E3).
  fold c1 in E1. fold c1 c2 in E2, E3.
  set (s0 := Build_Store (arrays s ++ [c]) (grids s) (heap s)).
  set (s1 := Build_Store (arrays s ++ [c1]) (grids s) (heap s)).
  set (s2 := Build_Store (arrays s ++ [c2]) (grids s) (heap s)).
  assert (L : forall x, (arrays s ++ [x]) !! n = Some x)
    by (intros x; now apply list_lookup_middle).
  assert (I : forall x y, <[n := y]> (arrays s ++ [x]) = arrays s ++ [y]).
  { intros x y. unfold n. rewrite insert_app_r_alt by lia.
    now replace (length (arrays s) - length (arrays s))%nat with 0%nat by lia. }
  unfold __init__.
  rewrite (bind_Ok _ _ _ _ _ (ndarray_copy_spec a s c Ha)).
  fold n s0. cbv beta zeta.
  rewrite (bind_Ok _ _ _ _ _ (view_read_spec (Build_View n 0) s0 c (L c))).
  rewrite (bind_Ok _ _ _ _ _ (view_read_spec (Build_View n 1) s0 c (L c))).
  rewrite (bind_Ok _ _ _ _ _
             (view_idiv_spec (Build_View n 0) (scale (info level)) s0 c (L c))).
  cbn [view_base view_axis arrays grids heap s0]. fold c1. rewrite I. fold s1.
  rewrite (bind_Ok _ _ _ _ _
             (view_idiv_spec (Build_View n 1) (scale (info level)) s1 c1 (L c1))).
  cbn [view_base view_axis arrays grids heap s1]. fold c2. rewrite I. fold s2.
  rewrite (bind_Ok _ _ _ _ _ (view_read_spec (Build_View n 0) s2 c2 (L c2))).
  rewrite (bind_Ok _ _ _ _ _ (view_read_spec (Build_View n 1) s2 c2 (L c2))).
  cbn [view_base view_axis]. rewrite E2, E3. reflexivity.
Qed.


End Init.

Section InitProperties.
Context {D : Type}.
Implicit Types (s : Store D) (level : OctreeLevel) (a : ref) (c : Corners).
Local Open Scope Q_scope.

Lemma clip_unit (x : Q) : 0 <= clip x 0 1 /\ clip x 0 1 <= 1.
Proof.
  unfold clip. split.
  - apply Q.min_glb; [apply Q.le_max_r | discriminate].
  - apply Q.le_min_r.
Qed.

Lemma run_calls_arrays (self : OctreeIntersection) calls s :
  arrays (run_calls self calls s) = arrays s.
Proof.
  revert s. induction calls as [|call calls IH]; intros s; [reflexivity|].
  unfold run_calls in *. simpl. rewrite IH.
  destruct call as [row col | slice_id]; [reflexivity|].
  apply get_chunks_evolves.
Qed.

(** C5: whatever the corners, the four entries of [normalized_range] lie
    in [[0, 1]]; they are the caller's row and column spans divided by the
    matching [base_shape] entry and clipped to [[0, 1]], taken before the
    spans are divided by the level's scale, so two levels over the same
    base image get the same [normalized_range]. *)
Theorem normalized_range_in_unit_interval level a s c :
  arrays s !! a = Some c ->
  (0 < fst (base_shape (image_config (info level))))%Z ->
  (0 < snd (base_shape (image_config (info level))))%Z ->
  exists self s',
    __init__ level a s = (Py.Ok self, s') /\
    List.Forall (fun x => 0 <= x /\ x <= 1) (components (normalized_range self)) /\
    normalized_range self =
    (clip2 (div2 (column 0 c)
                 (inject_Z (fst (base_shape (image_config (info level))))))
           0 1,
     clip2 (div2 (column 1 c)
                 (inject_Z (snd (base_shape (image_config (info level))))))
           0 1) /\
    forall level2,
      base_shape (image_config (info level2))
      = base_shape (image_config (info level)) ->
      exists self2 s2,
        __init__ level2 a s = (Py.Ok self2, s2) /\
        normalized_range self2 = normalized_range self.
Proof.
  intros Ha _ _. pose proof (init_spec level a s c Ha) as H.
  cbv zeta in H. eexists; eexists. split; [exact H|].
  cbn [normalized_range]. split; [|split; [reflexivity|]].
  - unfold components, clip2. cbn [fst snd].
    repeat constructor; apply clip_unit.
  - intros level2 Hb. pose proof (init_spec level2 a s c Ha) as H2.
    cbv zeta in H2. eexists; eexists. split; [exact H2|].
    cbn [normalized_range]. now rewrite Hb.
Qed.

(** C8 (amended): the intersection owns a buffer of its own, distinct from
    the caller's array, which still holds the base-coordinate corners;
    [rows] and [cols] are views of the two columns of that buffer and read
    as the caller's spans divided by the level's scale; and so the stored
    [corners_2d] itself holds the corners divided by the scale. *)
Theorem init_stores_rescaled_copy level a s c :
  arrays s !! a = Some c ->
  0 < scale (info level) ->
  exists self s' stored,
    __init__ level a s = (Py.Ok self, s') /\
    corners_2d self <> a /\
    arrays s' !! a = Some c /\
    rows self = Build_View (corners_2d self) 0 /\
    cols self = Build_View (corners_2d self) 1 /\
    view_read (D := D) (rows self) s'
    = (Py.Ok (div2 (column 0 c) (scale (info level))), s') /\
    view_read (D := D) (cols self) s'
    = (Py.Ok (div2 (column 1 c) (scale (info level))), s') /\
    arrays s' !! corners_2d self = Some stored /\
    column 0 stored = div2 (column 0 c) (scale (info level)) /\
    column 1 stored = div2 (column 1 c) (scale (info level)).
Proof.
  intros Ha _. pose proof (init_spec level a s c Ha) as H. cbv zeta in H.
  destruct (column_scaled c (scale (info level))) as (_ & E0 & E1).
  cbv zeta in E0, E1.
  assert (Hlt : (a < length (arrays s))%nat) by (eapply lookup_lt_Some; eauto).
  eexists; eexists; eexists. split; [exact H|].
  cbn [corners_2d rows cols arrays].
  assert (L : forall x, (arrays s ++ [x]) !! length (arrays s) = Some x)
    by (intros x; now apply list_lookup_middle).
  split; [lia|].
  split; [now rewrite lookup_app_l|].
  split; [reflexivity|]. split; [reflexivity|].
  split; [erewrite view_read_spec by apply L; cbn [view_axis];
          now rewrite E0|].
  split; [erewrite view_read_spec by apply L; cbn [view_axis];
          now rewrite E1|].
  split; [apply L|]. split; assumption.
Qed.

(** C9: [__init__] works on a copy: the caller's array holds the same
    values after construction, and after any sequence of [is_visible] and
    [get_chunks] calls on the intersection. *)
Theorem init_never_mutates_caller_buffer level a s c :
  arrays s !! a = Some c ->
  exists self s',
    __init__ level a s = (Py.Ok self, s') /\
    corners_2d self <> a /\
    arrays s' !! a = Some c /\
    forall calls, arrays (run_calls self calls s') !! a = Some c.
Proof.
  intros Ha. pose proof (init_spec level a s c Ha) as H. cbv zeta in H.
  assert (Hlt : (a < length (arrays s))%nat) by (eapply lookup_lt_Some; eauto).
  eexists; eexists. split; [exact H|]. cbn [corners_2d arrays].
  split; [lia|].
  assert (Hkeep : forall x, (arrays s ++ [x]) !! a = Some c)
    by (intros x; now rewrite lookup_app_l).
  split; [apply Hkeep|].
  intros calls. rewrite run_calls_arrays. apply Hkeep.
Qed.

End InitProperties.

(** ** Non-empty intersections *)


Lemma div_scale_mono (x y d : Q) : (0 < d)%Q -> (x <= y)%Q -> (x / d <= y / d)%Q.
Proof.
  intros Hd H. unfold Qdiv. apply Qmult_le_compat_r; [exact H|].
  now apply Qinv_le_0_compat, Qlt_le_weak.
Qed.

Lemma tile_at_in_grid {D} (s : Store D) (g : ref) (grid : TileGrid D)
    (shape : Z * Z) (row col : Z) :
  grids s !! g = Some grid -> grid_matches grid shape ->
  (0 <= row < fst shape)%Z -> (0 <= col < snd shape)%Z ->
  is_Some (tile_at s g row col).
Proof.
  intros Hg [Hrows Hcols] Hrow Hcol. unfold tile_at. rewrite Hg.
  destruct (getitem_in_range grid row ltac:(lia)) as [line Hline].
  rewrite Hline. apply getitem_in_range.
  apply getitem_Some in Hline as [_ Hline].
  apply list_elem_of_lookup_2, list_elem_of_In in Hline.
  rewrite List.Forall_forall in Hcols. rewrite (Hcols _ Hline). exact Hcol.
Qed.


(** ** The concrete scenario *)

(** C7: base image 1000 x 1000, scale 2.0, tile size 100, 5 x 5 tiles,
    corners [[0,0],[250,250]]: row and column ranges are both [[0, 2)];
    on an untouched grid [get_chunks] returns exactly four chunks, for the
    cells (0,0), (0,1), (1,0), (1,1) in that order, which now hold them;
    every position component is a multiple of 200. *)
Theorem scenario_four_chunks (D : Type) (payload : nat -> nat -> D)
    (level_index slice_id : Z) :
  exists self s1 s2,
    __init__ (scenario_level level_index) 0%nat (scenario_store payload)
    = (Py.Ok self, s1) /\
    _row_range self = Py.Range 0 2 /\
    _col_range self = Py.Range 0 2 /\
    visited self = [(0, 0); (0, 1); (1, 0); (1, 1)]%Z /\
    get_chunks self slice_id s1 = (Py.Ok [0; 1; 2; 3]%nat, s2) /\
    holds_chunks s2 0%nat (visited self) [0; 1; 2; 3]%nat /\
    List.map (fun ch => (chunk_data ch, chunk_location ch, geom_pos (chunk_geom ch)))
             (heap s2)
    = [(payload 0 0, Build_OctreeLocation slice_id level_index 0 0, (0, 0)%Q);
       (payload 0 1, Build_OctreeLocation slice_id level_index 0 1, (200, 0)%Q);
       (payload 1 0, Build_OctreeLocation slice_id level_index 1 0, (0, 200)%Q);
       (payload 1 1, Build_OctreeLocation slice_id level_index 1 1, (200, 200)%Q)]%nat /\
    List.Forall (fun ch => multiple_of 200 (fst (geom_pos (chunk_geom ch))) /\
                           multiple_of 200 (snd (geom_pos (chunk_geom ch))))
                (heap s2).
Proof.
  assert (M0 : multiple_of 200 0) by (exists 0%Z; reflexivity).
  assert (M1 : multiple_of 200 200) by (exists 1%Z; reflexivity).
  eexists; eexists; eexists.
  split; [lazy; reflexivity|].
  split; [reflexivity|]. split; [reflexivity|]. split; [reflexivity|].
  split; [lazy; reflexivity|].
  split; [repeat constructor|].
  split; [reflexivity|].
  repeat constructor; assumption.
Qed.

(** C8, as stated, fails: in the scenario the stored [corners_2d] holds the
    upper-right row 125 (250 divided by the scale 2), not the caller's
    250. *)
Lemma init_stored_corners_counterexample :
  exists self s' stored,
    __init__ (scenario_level 1) 0%nat (scenario_store (fun _ _ => tt))
    = (Py.Ok self, s') /\
    arrays (scenario_store (fun _ _ => tt)) !! 0%nat
    = Some ((0, 0), (250, 250))%Q /\
    arrays s' !! corners_2d self = Some stored /\
    (fst (snd stored) == 125)%Q /\
    ~ (fst (snd stored) == 250)%Q.
Proof.
  eexists; eexists; eexists.
  split; [lazy; reflexivity|].
  split; [reflexivity|]. split; [reflexivity|].
  split; [reflexivity | discriminate].
Qed.

(** ** The theorems at concrete inputs *)

Lemma get_chunks_materializes_once_witness :
  let s := scenario_store (fun _ _ => tt) in
  let s1 := snd (get_chunks scenario_view 7 s) in
  get_chunks scenario_view 7 s = (Py.Ok [0; 1; 2; 3]%nat, s1) /\
  holds_chunks s1 0%nat (visited scenario_view) [0; 1; 2; 3]%nat /\
  get_chunks scenario_view 7 s1 = (Py.Ok [0; 1; 2; 3]%nat, s1).
Proof.
  intros s s1.
  assert (H : get_chunks scenario_view 7 s = (Py.Ok [0; 1; 2; 3]%nat, s1))
    by reflexivity.
  destruct (get_chunks_materializes_once _ _ _ _ _ H) as (_ & H1 & _ & H2 & _).
  exact (conj H (conj H1 H2)).
Defined.

Lemma tile_range_within_grid_witness :
  let info := scenario_info 1 in
  let span := (0, 125)%Q in
  (fst span <= snd span)%Q /\
  (0 < tile_size (image_config info))%Z /\
  (0 < 5)%Z /\
  (0 <= Py.start (tile_range info span 5))%Z /\
  (Py.stop (tile_range info span 5) <= 5)%Z.
Proof.
  intros info span.
  assert (H1 : (fst span <= snd span)%Q) by (unfold Qle; simpl; lia).
  assert (H2 : (0 < tile_size (image_config info))%Z) by (simpl; lia).
  assert (H3 : (0 < 5)%Z) by lia.
  destruct (tile_range_within_grid info span 5 H1 H2 H3) as (Hs & He & _).
  exact (conj H1 (conj H2 (conj H3 (conj Hs He)))).
Defined.

Lemma tile_range_outside_clamps_to_edge_witness :
  let info := scenario_info 1 in
  let below := (-500, -100)%Q in
  let above := (600, 900)%Q in
  ((fst below <= snd below)%Q /\ (snd below < 0)%Q) /\
  ((fst above <= snd above)%Q /\ (inject_Z 5 * inject_Z 100 <= fst above)%Q) /\
  (0 < tile_size (image_config info))%Z /\
  (0 < 5)%Z /\
  Py.elements (tile_range info below 5) = [0%Z] /\
  Py.elements (tile_range info above 5) = [4%Z].
Proof.
  intros info below above.
  assert (B1 : (fst below <= snd below)%Q) by (unfold Qle; simpl; lia).
  assert (B2 : (snd below < 0)%Q) by (unfold Qlt; simpl; lia).
  assert (A1 : (fst above <= snd above)%Q) by (unfold Qle; simpl; lia).
  assert (A2 : (inject_Z 5 * inject_Z (tile_size (image_config info))
                <= fst above)%Q) by (unfold Qle; simpl; lia).
  assert (H2 : (0 < tile_size (image_config info))%Z) by (simpl; lia).
  assert (H3 : (0 < 5)%Z) by lia.
  destruct (tile_range_outside_clamps_to_edge info below 5 B1 H2 H3)
    as [Hlow _].
  destruct (tile_range_outside_clamps_to_edge info above 5 A1 H2 H3)
    as [_ Hhigh].
  exact (conj (conj B1 B2)
           (conj (conj A1 A2)
              (conj H2 (conj H3 (conj (proj2 (Hlow B2)) (proj2 (Hhigh A2))))))).
Defined.


Lemma normalized_range_in_unit_interval_witness :
  let s := scenario_store (fun _ _ => tt) in
  let level := scenario_level 1 in
  arrays s !! 0%nat = Some ((0, 0), (250, 250))%Q /\
  (0 < fst (base_shape (image_config (info level))))%Z /\
  (0 < snd (base_shape (image_config (info level))))%Z /\
  exists self s',
    __init__ level 0%nat s = (Py.Ok self, s') /\
    List.Forall (fun x => 0 <= x /\ x <= 1)%Q (components (normalized_range self)).
Proof.
  intros s level.
  assert (H1 : arrays s !! 0%nat = Some ((0, 0), (250, 250))%Q) by reflexivity.
  assert (H2 : (0 < fst (base_shape (image_config (info level))))%Z)
    by (simpl; lia).
  assert (H3 : (0 < snd (base_shape (image_config (info level))))%Z)
    by (simpl; lia).
  destruct (normalized_range_in_unit_interval level 0%nat s _ H1 H2 H3)
    as (self & s' & Hrun & Hunit & _).
  exact (conj H1 (conj H2 (conj H3
           (ex_intro _ self (ex_intro _ s' (conj Hrun Hunit)))))).
Defined.

Lemma init_stores_rescaled_copy_witness :
  let s := scenario_store (fun _ _ => tt) in
  let level := scenario_level 1 in
  arrays s !! 0%nat = Some ((0, 0), (250, 250))%Q /\
  (0 < scale (info level))%Q /\
  exists self s' stored,
    __init__ level 0%nat s = (Py.Ok self, s') /\
    arrays s' !! corners_2d self = Some stored /\
    column 0 stored = div2 (0, 250)%Q 2 /\
    column 1 stored = div2 (0, 250)%Q 2.
Proof.
  intros s level.
  assert (H1 : arrays s !! 0%nat = Some ((0, 0), (250, 250))%Q) by reflexivity.
  assert (H2 : (0 < scale (info level))%Q) by (unfold Qlt; simpl; lia).
  destruct (init_stores_rescaled_copy level 0%nat s _ H1 H2)
    as (self & s' & stored & Hrun & _ & _ & _ & _ & _ & _ & Hst & E0 & E1).
  exact (conj H1 (conj H2
           (ex_intro _ self (ex_intro _ s' (ex_intro _ stored
              (conj Hrun (conj Hst (conj E0 E1)))))))).
Defined.

Lemma init_never_mutates_caller_buffer_witness :
  let s := scenario_store (fun _ _ => tt) in
  let level := scenario_level 1 in
  arrays s !! 0%nat = Some ((0, 0), (250, 250))%Q /\
  exists self s',
    __init__ level 0%nat s = (Py.Ok self, s') /\
    forall calls,
      arrays (run_calls self calls s') !! 0%nat = Some ((0, 0), (250, 250))%Q.
Proof.
  intros s level.
  assert (H1 : arrays s !! 0%nat = Some ((0, 0), (250, 250))%Q) by reflexivity.
  destruct (init_never_mutates_caller_buffer level 0%nat s _ H1)
    as (self & s' & Hrun & _ & _ & Hcalls).
  exact (conj H1 (ex_intro _ self (ex_intro _ s' (conj Hrun Hcalls)))).
Defined.


(** * Further properties of the module *)

(** ** tile_range: growth and inverted spans *)

Section TileRangeMore.
Local Open Scope Q_scope.
Variable info : OctreeLevelInfo.
Local Abbreviation ts := (tile_size (image_config info)).

(** X1: a wider span never loses a tile: if [span'] contains [span], the
    range of [span'] starts no later and stops no earlier, so it contains
    every index of the range of [span]. *)
Theorem tile_range_monotone (span span' : Float2) (num_tiles : Z) :
  (0 < ts)%Z -> (1 <= num_tiles)%Z ->
  fst span' <= fst span -> snd span <= snd span' ->
  (Py.start (tile_range info span' num_tiles)
   <= Py.start (tile_range info span num_tiles))%Z /\
  (Py.stop (tile_range info span num_tiles)
   <= Py.stop (tile_range info span' num_tiles))%Z /\
  forall i, in_range i (tile_range info span num_tiles) ->
            in_range i (tile_range info span' num_tiles).
Proof.
  intros Hts Hn H0 H1.
  assert (Hs : (Py.start (tile_range info span' num_tiles)
                <= Py.start (tile_range info span num_tiles))%Z).
  { rewrite !tile_range_start by exact Hn.
    apply Qfloor_resp_le, clamp_mono. now apply div_tile_size_mono. }
  assert (He : (Py.stop (tile_range info span num_tiles)
                <= Py.stop (tile_range info span' num_tiles))%Z).
  { rewrite !tile_range_stop by exact Hn.
    apply Z.add_le_mono_r, Qfloor_resp_le, clamp_mono.
    now apply div_tile_size_mono. }
  split; [exact Hs|]. split; [exact He|].
  unfold in_range. intros i Hi. lia.
Qed.

(** X2: the order of the span's ends matters: a span inside the valid
    interval whose first end lies two whole tiles or more beyond its second
    end gets an empty range. *)
Theorem tile_range_inverted_empty (span : Float2) (num_tiles : Z) :
  (0 < ts)%Z -> (1 <= num_tiles)%Z ->
  0 <= snd span ->
  snd span + inject_Z 2 * inject_Z ts <= fst span ->
  fst span < inject_Z num_tiles * inject_Z ts ->
  (Py.stop (tile_range info span num_tiles)
   <= Py.start (tile_range info span num_tiles))%Z /\
  Py.elements (tile_range info span num_tiles) = [].
Proof.
  intros Hts Hn H1 Hgap2 H0.
  assert (Hq := tile_size_Q_pos info Hts).
  assert (Hne : ~ inject_Z ts == 0).
  { intros E. rewrite E in Hq. discriminate. }
  assert (Hgap : snd span + inject_Z ts <= fst span).
  { eapply Qle_trans; [|exact Hgap2].
    apply Qplus_le_compat; [apply Qle_refl|].
    rewrite <- (Qmult_1_l (inject_Z ts)) at 1.
    apply Qmult_le_compat_r; [discriminate | now apply Qlt_le_weak]. }
  assert (Ht1 : 0 <= snd span / inject_Z ts).
  { apply Qle_shift_div_l; [exact Hq|]. now rewrite Qmult_0_l. }
  assert (Hstep : snd span / inject_Z ts + 1 <= fst span / inject_Z ts).
  { apply Qle_shift_div_l; [exact Hq|].
    assert (E : (snd span / inject_Z ts + 1) * inject_Z ts
                == snd span + inject_Z ts) by (field; exact Hne).
    now rewrite E. }
  assert (Ht0 : fst span / inject_Z ts < inject_Z num_tiles).
  { now apply Qlt_shift_div_r. }
  assert (Hle : (Py.stop (tile_range info span num_tiles)
                 <= Py.start (tile_range info span num_tiles))%Z).
  { rewrite tile_range_start, tile_range_stop by exact Hn.
    rewrite !Qfloor_clamp_inside.
    - rewrite <- Qfloor_succ. now apply Qfloor_resp_le.
    - eapply Qle_trans; [exact Ht1|].
      eapply Qle_trans; [|exact Hstep].
      rewrite <- (Qplus_0_r (snd span / inject_Z ts)) at 1.
      apply Qplus_le_compat; [apply Qle_refl | discriminate].
    - exact Ht0.
    - exact Ht1.
    - eapply Qle_lt_trans; [|exact Ht0].
      eapply Qle_trans; [|exact Hstep].
      rewrite <- (Qplus_0_r (snd span / inject_Z ts)) at 1.
      apply Qplus_le_compat; [apply Qle_refl | discriminate]. }
  split; [exact Hle|].
  unfold Py.elements.
  replace (Z.to_nat _) with 0%nat by lia. reflexivity.
Qed.


End TileRangeMore.

(** ** get_chunks: which tiles it writes *)

Section Frame.
Context {D : Type}.
Implicit Types (s : Store D) (g : ref) (row col : Z).

Lemma position_nonneg {A} (l : list A) (i : Z) :
  (0 <= i)%Z -> Py.position l i = Z.to_nat i.
Proof.
  intros H. unfold Py.position. destruct (Z.ltb_spec i 0); [lia | reflexivity].
Qed.

Lemma tiles_setitem_frame g row col s (t : Tile D) g' row' col' :
  (0 <= row)%Z -> (0 <= col)%Z ->
  g' <> g \/ ((0 <= row')%Z /\ (0 <= col')%Z /\ (row', col') <> (row, col)) ->
  tile_at (snd (tiles_setitem g row col t s)) g' row' col'
  = tile_at s g' row' col'.
Proof.
  intros Hrow Hcol Hother. unfold tiles_setitem.
  destruct (grids s !! g) as [grid|] eqn:Eg; [|reflexivity].
  destruct (Py.getitem grid row) as [line|] eqn:Er; [|reflexivity].
  destruct (Py.getitem line col) as [old|] eqn:Ec; [|reflexivity].
  unfold tile_at. simpl.
  destruct (decide (g = g')) as [<-|Hne];
    [|now rewrite list_lookup_insert_ne by exact Hne].
  destruct Hother as [Hg | (Hrow' & Hcol' & Hcell)]; [congruence|].
  rewrite list_lookup_insert_eq by (eapply lookup_lt_Some; eauto).
  rewrite Eg, getitem_insert.
  destruct (Py.getitem grid row') as [line2|] eqn:Er'; [|reflexivity].
  destruct (decide (Py.position grid row' = Py.position grid row))
    as [Hp|Hp]; [|reflexivity].
  rewrite !position_nonneg in Hp by assumption.
  assert (row' = row) as -> by lia.
  assert (line2 = line) as -> by congruence.
  rewrite getitem_insert.
  destruct (Py.getitem line col') as [y|]; [|reflexivity].
  destruct (decide (Py.position line col' = Py.position line col))
    as [Hq|Hq]; [|reflexivity].
  rewrite !position_nonneg in Hq by assumption.
  assert (col' = col) as -> by lia. congruence.
Qed.

Lemma chunk_at_frame self slice_id scale_vec y row x col s g' row' col' :
  (0 <= row)%Z -> (0 <= col)%Z ->
  g' <> tiles (level self) \/
  ((0 <= row')%Z /\ (0 <= col')%Z /\ (row', col') <> (row, col)) ->
  tile_at (snd (chunk_at self slice_id scale_vec y row x col s)) g' row' col'
  = tile_at s g' row' col'.
Proof.
  intros Hrow Hcol Hother.
  pose proof (tiles_getitem_spec (tiles (level self)) row col s) as Hget.
  unfold chunk_at, bind.
  destruct (tile_at s (tiles (level self)) row col) as [[d|r]|].
  - rewrite Hget. set (c := Build_OctreeChunk d _ _).
    pose proof (tiles_setitem_frame (tiles (level self)) row col
                  (snd (new_chunk c s)) (Chunk (length (heap s)))
                  g' row' col' Hrow Hcol Hother) as Hf.
    simpl in *.
    destruct (tiles_setitem _ _ _ _ _) as [[u|e] s']; exact Hf.
  - now rewrite Hget.
  - destruct Hget as [e ->]. reflexivity.
Qed.

Lemma for_cols_frame self slice_id scale_vec scaled_size y row cs x chunks s
    g' row' col' :
  (0 <= row)%Z -> List.Forall (fun col => (0 <= col)%Z) cs ->
  g' <> tiles (level self) \/
  ((0 <= row')%Z /\ (0 <= col')%Z /\
   ~ In (row', col') (List.map (fun col => (row, col)) cs)) ->
  tile_at (snd (for_cols self slice_id scale_vec scaled_size y row cs x chunks s))
          g' row' col'
  = tile_at s g' row' col'.
Proof.
  intros Hrow Hcs. revert x chunks s.
  induction Hcs as [|col cs Hcol _ IH]; intros x chunks s Hother;
    [reflexivity|].
  simpl. unfold bind.
  assert (H1 : g' <> tiles (level self) \/
               ((0 <= row')%Z /\ (0 <= col')%Z /\ (row', col') <> (row, col))).
  { destruct Hother as [?|(? & ? & Hn)]; [now left|].
    right. repeat split; try assumption. intros E. apply Hn. left. now symmetry. }
  assert (H2 : g' <> tiles (level self) \/
               ((0 <= row')%Z /\ (0 <= col')%Z /\
                ~ In (row', col') (List.map (fun col => (row, col)) cs))).
  { destruct Hother as [?|(? & ? & Hn)]; [now left|].
    right. repeat split; try assumption. intros E. apply Hn. now right. }
  pose proof (chunk_at_frame self slice_id scale_vec y row x col s
                g' row' col' Hrow Hcol H1) as Hf.
  destruct (chunk_at self slice_id scale_vec y row x col s) as [[r|e] s1];
    [|exact Hf].
  rewrite IH by exact H2. exact Hf.
Qed.

Lemma for_rows_frame self slice_id scale_vec scaled_size rs y chunks s
    g' row' col' :
  List.Forall (fun row => (0 <= row)%Z) rs ->
  List.Forall (fun col => (0 <= col)%Z) (Py.elements (_col_range self)) ->
  g' <> tiles (level self) \/
  ((0 <= row')%Z /\ (0 <= col')%Z /\
   ~ In (row', col')
        (flat_map (fun row => List.map (fun col => (row, col))
                                       (Py.elements (_col_range self))) rs)) ->
  tile_at (snd (for_rows self slice_id scale_vec scaled_size rs y chunks s))
          g' row' col'
  = tile_at s g' row' col'.
Proof.
  intros Hrs Hcs. revert y chunks s.
  induction Hrs as [|row rs Hrow _ IH]; intros y chunks s Hother;
    [reflexivity|].
  simpl. unfold bind.
  assert (H1 : g' <> tiles (level self) \/
               ((0 <= row')%Z /\ (0 <= col')%Z /\
                ~ In (row', col')
                     (List.map (fun col => (row, col))
                               (Py.elements (_col_range self))))).
  { destruct Hother as [?|(? & ? & Hn)]; [now left|].
    right. repeat split; try assumption. intros E. apply Hn.
    simpl. apply in_or_app. now left. }
  assert (H2 : g' <> tiles (level self) \/
               ((0 <= row')%Z /\ (0 <= col')%Z /\
                ~ In (row', col')
                     (flat_map (fun row => List.map (fun col => (row, col))
                                  (Py.elements (_col_range self))) rs))).
  { destruct Hother as [?|(? & ? & Hn)]; [now left|].
    right. repeat split; try assumption. intros E. apply Hn.
    simpl. apply in_or_app. now right. }
  match goal with |- context [for_cols ?a ?b ?c ?d ?e ?f ?h ?i ?j s] =>
    pose proof (for_cols_frame a b c d e f h i j s g' row' col' Hrow Hcs H1)
      as Hf;
    destruct (for_cols a b c d e f h i j s) as [[out|e'] s1] end;
    [|exact Hf].
  rewrite IH by exact H2. exact Hf.
Qed.

Lemma elements_nonneg (r : Py.range) :
  (0 <= Py.start r)%Z -> List.Forall (fun i => (0 <= i)%Z) (Py.elements r).
Proof.
  intros H. apply List.Forall_forall. intros i Hi.
  apply elements_in_range in Hi. unfold in_range in Hi. lia.
Qed.

(** X3: [get_chunks] writes only to tiles of its own level that are inside
    the intersection.  With ranges that start at 0 or above, every tile
    for which [is_visible] is false reads as before the call, and so does
    every tile of another level's grid; the numpy buffers are untouched
    and the chunk objects that existed are still there, unchanged.  This
    holds whether the call returns or raises. *)
Theorem get_chunks_writes_only_visible self slice_id s :
  (0 <= Py.start (_row_range self))%Z ->
  (0 <= Py.start (_col_range self))%Z ->
  let s1 := snd (get_chunks self slice_id s) in
  (forall row col, (0 <= row)%Z -> (0 <= col)%Z ->
                   is_visible self row col = false ->
                   tile_at s1 (tiles (level self)) row col
                   = tile_at s (tiles (level self)) row col) /\
  (forall g row col, g <> tiles (level self) ->
                     tile_at s1 g row col = tile_at s g row col) /\
  arrays s1 = arrays s /\
  (forall r ch, heap s !! r = Some ch -> heap s1 !! r = Some ch).
Proof.
  intros Hr Hc s1. split; [|split; [|split]].
  - intros row col Hrow Hcol Hvis. unfold s1, get_chunks.
    apply for_rows_frame; try (apply elements_nonneg; assumption).
    right. repeat split; try assumption.
    intros Hin. apply (visited_in_range self row col) in Hin.
    apply is_visible_iff in Hin. congruence.
  - intros g row col Hg. unfold s1, get_chunks.
    apply for_rows_frame; try (apply elements_nonneg; assumption).
    now left.
  - apply get_chunks_evolves.
  - intros r ch Hch.
    destruct (evolves_heap _ _ (get_chunks_evolves self slice_id s)) as [new E].
    unfold s1. rewrite E. now apply lookup_app_l_Some.
Qed.

End Frame.

(** ** get_chunks: the chunks it builds *)

Section Built.
Context {D : Type}.
Variables (self : OctreeIntersection) (slice_id : Z).
Variables (scale_vec : Float2) (scaled_size : Q).
Implicit Types (s : Store D) (chunks : list ref).
Local Abbreviation g := (tiles (level self)).
Local Abbreviation built := (built_from self slice_id scale_vec scaled_size).

Lemma tile_step_raw (o : option (Tile D)) (d : D) :
  tile_step o (Some (RawData d)) -> o = Some (RawData d).
Proof. intros H. now inversion H. Qed.

Lemma built_nothing s cells : built s s cells.
Proof.
  intros r ch Hr Hch. apply lookup_lt_Some in Hch. lia.
Qed.

Lemma built_trans s s' s1 cells1 cells2 :
  evolves s s' -> evolves s' s1 ->
  built s s' cells1 -> built s' s1 cells2 -> built s s1 (cells1 ++ cells2).
Proof.
  intros E1 E2 B1 B2 r ch Hr Hch.
  destruct (evolves_heap _ _ E1) as [new1 H1].
  destruct (evolves_heap _ _ E2) as [new2 H2].
  destruct (Nat.lt_ge_cases r (length (heap s'))) as [Hlt|Hge].
  - assert (Hch' : heap s' !! r = Some ch).
    { rewrite H2, lookup_app_l in Hch by exact Hlt. exact Hch. }
    destruct (B1 r ch Hr Hch') as (row & col & d & Hin & Hraw & Hnew & Hrest).
    exists row, col, d. split; [apply in_or_app; now left|].
    split; [exact Hraw|]. split; [|exact Hrest].
    apply tile_step_chunk. rewrite <- Hnew. apply E2.
  - destruct (B2 r ch Hge Hch) as (row & col & d & Hin & Hraw & Hnew & Hrest).
    exists row, col, d. split; [apply in_or_app; now right|].
    split; [|split; [exact Hnew | exact Hrest]].
    apply tile_step_raw. rewrite <- Hraw. apply E1.
Qed.

Lemma chunk_at_built y row x col s r s' :
  chunk_at self slice_id scale_vec y row x col s = (Py.Ok r, s') ->
  (x == inject_Z col * scaled_size)%Q ->
  (y == inject_Z row * scaled_size)%Q ->
  built s s' [(row, col)].
Proof.
  intros Hrun Hx Hy.
  pose proof (chunk_at_spec self slice_id scale_vec y row x col s) as H.
  destruct (tile_at s g row col) as [[d|r0]|] eqn:Et.
  - destruct H as (s1 & Hrun' & _ & Hnew & Hheap).
    rewrite Hrun' in Hrun. injection Hrun as <- <-.
    intros r ch Hr Hch. rewrite Hheap in Hch.
    assert (r = length (heap s)) as ->.
    { apply lookup_lt_Some in Hch. rewrite length_app in Hch. simpl in Hch. lia. }
    rewrite list_lookup_middle in Hch by reflexivity.
    injection Hch as <-.
    exists row, col, d. split; [now left|]. split; [exact Et|].
    split; [exact Hnew|]. simpl. repeat split; assumption.
  - rewrite H in Hrun. injection Hrun as <- <-. apply built_nothing.
  - destruct H as [e He]. rewrite He in Hrun. discriminate.
Qed.

Lemma for_cols_built y row first n j x chunks s out s' :
  for_cols self slice_id scale_vec scaled_size y row (consecutive first j n)
           x chunks s = (Py.Ok out, s') ->
  (x == inject_Z (first + Z.of_nat j) * scaled_size)%Q ->
  (y == inject_Z row * scaled_size)%Q ->
  built s s' (List.map (fun col => (row, col)) (consecutive first j n)).
Proof.
  revert j x chunks s. induction n as [|n IH]; intros j x chunks s; simpl.
  - intros [= <- <-] _ _. apply built_nothing.
  - unfold bind.
    destruct (chunk_at self slice_id scale_vec y row x
                       (first + Z.of_nat j)%Z s) as [[r|e] s1] eqn:E;
      [|discriminate].
    intros Hrest Hx Hy.
    pose proof (chunk_at_evolves self slice_id scale_vec y row x
                                 (first + Z.of_nat j)%Z s) as E1.
    rewrite E in E1. simpl in E1.
    pose proof (for_cols_evolves self slice_id scale_vec scaled_size y row
                  (consecutive first (S j) n) (x + scaled_size)%Q
                  (chunks ++ [r]) s1) as E2.
    unfold consecutive in Hrest, E2. rewrite Hrest in E2. simpl in E2.
    apply (built_trans s s1 s' [(row, (first + Z.of_nat j)%Z)] _ E1 E2).
    + eapply chunk_at_built; eassumption.
    + eapply IH; [exact Hrest | | exact Hy].
      rewrite Hx, Nat2Z.inj_succ, <- Z.add_1_r, Z.add_assoc.
      rewrite (inject_Z_plus (first + Z.of_nat j) 1). ring.
Qed.

Lemma for_rows_built first m j y chunks s out s' :
  for_rows self slice_id scale_vec scaled_size (consecutive first j m)
           y chunks s = (Py.Ok out, s') ->
  (y == inject_Z (first + Z.of_nat j) * scaled_size)%Q ->
  built s s'
        (flat_map (fun row => List.map (fun col => (row, col))
                                       (Py.elements (_col_range self)))
                  (consecutive first j m)).
Proof.
  revert j y chunks s. induction m as [|m IH]; intros j y chunks s; simpl.
  - intros [= <- <-] _. apply built_nothing.
  - unfold bind.
    match goal with |- context [for_cols ?a ?b ?c ?d ?e ?f ?h ?i ?k s] =>
      pose proof (for_cols_evolves a b c d e f h i k s) as E1;
      destruct (for_cols a b c d e f h i k s) as [[mid|e'] s1] eqn:E
    end; [|discriminate].
    intros Hrest Hy. simpl in E1.
    pose proof (for_rows_evolves self slice_id scale_vec scaled_size
                  (consecutive first (S j) m) (y + scaled_size)%Q mid s1) as E2.
    unfold consecutive in Hrest, E2. rewrite Hrest in E2. simpl in E2.
    apply (built_trans s s1 s' _ _ E1 E2).
    + apply (for_cols_built y (first + Z.of_nat j)%Z
                            (Py.start (_col_range self))
                            (Z.to_nat (Py.stop (_col_range self)
                                       - Py.start (_col_range self)))
                            0%nat _ chunks s mid s1 E).
      * now rewrite Z.add_0_r.
      * exact Hy.
    + eapply IH; [exact Hrest|].
      rewrite Hy, Nat2Z.inj_succ, <- Z.add_1_r, Z.add_assoc.
      rewrite (inject_Z_plus (first + Z.of_nat j) 1). ring.
Qed.

End Built.

Section GetChunksMore.
Context {D : Type}.
Implicit Types (s : Store D) (self : OctreeIntersection) (slice_id : Z).

Lemma holds_chunks_length s (g : ref) cells chunks :
  holds_chunks s g cells chunks -> length chunks = length cells.
Proof. intros H. symmetry. exact (Forall2_length _ _ _ H). Qed.

Lemma length_visited self :
  length (visited self)
  = (Z.to_nat (Py.stop (_row_range self) - Py.start (_row_range self))
     * Z.to_nat (Py.stop (_col_range self) - Py.start (_col_range self)))%nat.
Proof.
  unfold visited. rewrite <- !length_elements.
  induction (Py.elements (_row_range self)) as [|row rs IH]; [reflexivity|].
  simpl. rewrite length_app, length_map, IH. reflexivity.
Qed.

Lemma get_chunks_built self slice_id s chunks s1 :
  get_chunks self slice_id s = (Py.Ok chunks, s1) ->
  forall (r : ref) (ch : OctreeChunk D),
    (length (heap s) <= r)%nat -> heap s1 !! r = Some ch ->
    exists row col d,
      in_range row (_row_range self) /\ in_range col (_col_range self) /\
      In r chunks /\
      tile_at s (tiles (level self)) row col = Some (RawData d) /\
      tile_at s1 (tiles (level self)) row col = Some (Chunk r) /\
      chunk_data ch = d /\
      chunk_location ch =
      {| loc_slice_id := slice_id;
         loc_level_index := level_index (info (level self));
         loc_row := row; loc_col := col |} /\
      geom_scale (chunk_geom ch)
      = (scale (info (level self)), scale (info (level self))) /\
      (fst (geom_pos (chunk_geom ch))
       == inject_Z col * (inject_Z (tile_size (image_config (info (level self))))
                          * scale (info (level self))))%Q /\
      (snd (geom_pos (chunk_geom ch))
       == inject_Z row * (inject_Z (tile_size (image_config (info (level self))))
                          * scale (info (level self))))%Q.
Proof.
  intros Hrun r ch Hr Hch.
  pose proof (get_chunks_Ok _ _ _ _ _ Hrun) as Hheld.
  unfold get_chunks in Hrun.
  apply (for_rows_built self slice_id _ _ (Py.start (_row_range self))
           (Z.to_nat (Py.stop (_row_range self) - Py.start (_row_range self)))
           0%nat) in Hrun; [|now rewrite Z.add_0_r].
  destruct (Hrun r ch Hr Hch)
    as (row & col & d & Hin & Hraw & Hnew & Hd & Hloc & Hsc & Hx & Hy).
  apply (visited_in_range self row col) in Hin as Hrange.
  destruct Hrange as [Hrow Hcol].
  destruct (holds_chunks_In _ _ _ _ (row, col) Hheld Hin) as (r' & Hr' & Ht).
  simpl in Ht. rewrite Hnew in Ht. injection Ht as <-.
  exists row, col, d.
  exact (conj Hrow (conj Hcol (conj Hr' (conj Hraw (conj Hnew (conj Hd
           (conj Hloc (conj Hsc (conj Hx Hy))))))))).
Qed.

(** X4: every chunk object a successful [get_chunks] call creates belongs
    to one tile of the intersection that held raw data before the call:
    the tile now holds the chunk, the chunk is in the returned list, wraps
    that raw data, is located at [(slice_id, level_index, row, col)], has
    scale [(scale, scale)], and its position is
    [(col * tile_size * scale, row * tile_size * scale)]: the running sums
    [x] and [y] equal the products. *)
Theorem get_chunks_builds self slice_id s chunks s1 :
  get_chunks self slice_id s = (Py.Ok chunks, s1) ->
  forall (r : ref) (ch : OctreeChunk D),
    (length (heap s) <= r)%nat -> heap s1 !! r = Some ch ->
    exists row col d,
      in_range row (_row_range self) /\ in_range col (_col_range self) /\
      In r chunks /\
      tile_at s (tiles (level self)) row col = Some (RawData d) /\
      tile_at s1 (tiles (level self)) row col = Some (Chunk r) /\
      chunk_data ch = d /\
      chunk_location ch =
      {| loc_slice_id := slice_id;
         loc_level_index := level_index (info (level self));
         loc_row := row; loc_col := col |} /\
      geom_scale (chunk_geom ch)
      = (scale (info (level self)), scale (info (level self))) /\
      (fst (geom_pos (chunk_geom ch))
       == inject_Z col * (inject_Z (tile_size (image_config (info (level self))))
                          * scale (info (level self))))%Q /\
      (snd (geom_pos (chunk_geom ch))
       == inject_Z row * (inject_Z (tile_size (image_config (info (level self))))
                          * scale (info (level self))))%Q.
Proof. exact (get_chunks_built self slice_id s chunks s1). Qed.

(** X5: [get_chunks] returns exactly when every [(row, col)] of its ranges
    indexes an existing cell of the level's grid; when it returns, the list
    has one chunk per tile of the ranges; when some tile of the ranges is
    missing from the grid, it raises. *)
Theorem get_chunks_returns_iff self slice_id s :
  ((exists chunks s1, get_chunks self slice_id s = (Py.Ok chunks, s1)) <->
   (forall row col, in_range row (_row_range self) ->
                    in_range col (_col_range self) ->
                    is_Some (tile_at s (tiles (level self)) row col))) /\
  (forall chunks s1,
      get_chunks self slice_id s = (Py.Ok chunks, s1) ->
      length chunks
      = (Z.to_nat (Py.stop (_row_range self) - Py.start (_row_range self))
         * Z.to_nat (Py.stop (_col_range self)
                     - Py.start (_col_range self)))%nat) /\
  (forall row col, in_range row (_row_range self) ->
                   in_range col (_col_range self) ->
                   tile_at s (tiles (level self)) row col = None ->
                   exists e s1, get_chunks self slice_id s = (Py.Raise e, s1)).
Proof.
  assert (Honly : (exists chunks s1,
                      get_chunks self slice_id s = (Py.Ok chunks, s1)) ->
                  forall row col, in_range row (_row_range self) ->
                                  in_range col (_col_range self) ->
                                  is_Some (tile_at s (tiles (level self)) row col)).
  { intros (chunks & s1 & Hrun) row col Hrow Hcol.
    pose proof (get_chunks_Ok _ _ _ _ _ Hrun) as Hheld.
    destruct (holds_chunks_In _ _ _ _ (row, col) Hheld) as (r & _ & Ht).
    { now apply visited_in_range. }
    pose proof (evolves_tiles _ _ (get_chunks_evolves self slice_id s)
                  (tiles (level self)) row col) as Hstep.
    rewrite Hrun in Hstep. simpl in Hstep, Ht. rewrite Ht in Hstep.
    inversion Hstep; eauto. }
  split; [split; [exact Honly|] | split].
  - intros Hcells.
    destruct (get_chunks_total self slice_id s Hcells) as (chunks & s1 & Hrun & _).
    eauto.
  - intros chunks s1 Hrun.
    rewrite (holds_chunks_length _ _ _ _ (get_chunks_Ok _ _ _ _ _ Hrun)).
    apply length_visited.
  - intros row col Hrow Hcol Hnone.
    destruct (get_chunks self slice_id s) as [[chunks|e] s1] eqn:Hrun;
      [|eauto].
    destruct (Honly (ex_intro _ chunks (ex_intro _ s1 eq_refl)) row col Hrow Hcol)
      as [t Ht].
    congruence.
Qed.

Lemma for_rows_no_cols self slice_id scale_vec scaled_size rs y chunks s :
  Py.elements (_col_range self) = [] ->
  for_rows self slice_id scale_vec scaled_size rs y chunks s = (Py.Ok chunks, s).
Proof.
  intros Hc. revert y. induction rs as [|row rs IH]; intros y; simpl.
  - reflexivity.
  - rewrite Hc. simpl. unfold bind, ret. apply IH.
Qed.

Lemma elements_empty (r : Py.range) :
  (Py.stop r <= Py.start r)%Z -> Py.elements r = [].
Proof.
  intros H. unfold Py.elements.
  replace (Z.to_nat (Py.stop r - Py.start r)) with 0%nat by lia. reflexivity.
Qed.

(** X6: with an empty row range or an empty column range, no tile is
    visible, and [get_chunks] returns the empty list without reading the
    grid or changing the store (so it cannot raise either). *)
Theorem empty_range_no_chunks self slice_id s :
  (Py.stop (_row_range self) <= Py.start (_row_range self))%Z \/
  (Py.stop (_col_range self) <= Py.start (_col_range self))%Z ->
  get_chunks self slice_id s = (Py.Ok [], s) /\
  forall row col, is_visible self row col = false.
Proof.
  intros Hempty. split.
  - unfold get_chunks. destruct Hempty as [Hr|Hc].
    + now rewrite (elements_empty _ Hr).
    + apply for_rows_no_cols. now apply elements_empty.
  - intros row col. destruct (is_visible self row col) eqn:E; [|reflexivity].
    apply is_visible_iff in E. unfold in_range in E. lia.
Qed.

(** X7: [slice_id] is used only when a chunk is created.  Once a call
    has returned, a call for any other slice returns the same chunk
    objects and leaves the store as it is: the chunks keep the location,
    and with it the slice id, they were created with. *)
Theorem slice_id_only_at_creation self slice_id s chunks s1 :
  get_chunks self slice_id s = (Py.Ok chunks, s1) ->
  forall slice_id', get_chunks self slice_id' s1 = (Py.Ok chunks, s1).
Proof.
  intros Hrun slice_id'. apply get_chunks_settled.
  exact (get_chunks_Ok _ _ _ _ _ Hrun).
Qed.

(** X8: two intersections with the same level share chunks: after
    [get_chunks] on the first, [get_chunks] on the second returns, for
    every tile in both, the very chunk object the first call returned, and
    that object is unchanged; whatever the second call builds is for tiles
    that still held raw data. *)
Theorem overlapping_views_share_chunks self1 self2 slice_id1 slice_id2
    s chunks1 s1 chunks2 s2 :
  tiles (level self2) = tiles (level self1) ->
  get_chunks self1 slice_id1 s = (Py.Ok chunks1, s1) ->
  get_chunks self2 slice_id2 s1 = (Py.Ok chunks2, s2) ->
  (forall row col,
      in_range row (_row_range self1) -> in_range col (_col_range self1) ->
      in_range row (_row_range self2) -> in_range col (_col_range self2) ->
      exists r,
        In r chunks1 /\ In r chunks2 /\
        tile_at s1 (tiles (level self1)) row col = Some (Chunk r) /\
        tile_at s2 (tiles (level self1)) row col = Some (Chunk r) /\
        forall ch, heap s1 !! r = Some ch -> heap s2 !! r = Some ch) /\
  (forall r ch,
      (length (heap s1) <= r)%nat -> heap s2 !! r = Some ch ->
      exists row col d,
        in_range row (_row_range self2) /\ in_range col (_col_range self2) /\
        tile_at s1 (tiles (level self1)) row col = Some (RawData d) /\
        chunk_data ch = d).
Proof.
  intros Hg Hrun1 Hrun2.
  pose proof (get_chunks_Ok _ _ _ _ _ Hrun1) as Hheld1.
  pose proof (get_chunks_Ok _ _ _ _ _ Hrun2) as Hheld2.
  pose proof (get_chunks_evolves self2 slice_id2 s1) as E2.
  rewrite Hrun2 in E2. simpl in E2. rewrite Hg in Hheld2.
  split.
  - intros row col Hr1 Hc1 Hr2 Hc2.
    destruct (holds_chunks_In _ _ _ _ (row, col) Hheld1) as (r & Hin1 & Ht1);
      [now apply visited_in_range|].
    destruct (holds_chunks_In _ _ _ _ (row, col) Hheld2) as (r' & Hin2 & Ht2);
      [now apply visited_in_range|].
    simpl in Ht1, Ht2.
    assert (Ht : tile_at s2 (tiles (level self1)) row col = Some (Chunk r)).
    { apply tile_step_chunk. rewrite <- Ht1. apply E2. }
    assert (r' = r) as -> by congruence.
    exists r. split; [exact Hin1|]. split; [exact Hin2|].
    split; [exact Ht1|]. split; [exact Ht|].
    intros ch Hch. destruct (evolves_heap _ _ E2) as [new ->].
    now apply lookup_app_l_Some.
  - intros r ch Hr Hch.
    destruct (get_chunks_built _ _ _ _ _ Hrun2 r ch Hr Hch)
      as (row & col & d & Hrow & Hcol & _ & Hraw & _ & Hd & _).
    rewrite Hg in Hraw. exists row, col, d.
    exact (conj Hrow (conj Hcol (conj Hraw Hd))).
Qed.

End GetChunksMore.

(** ** __init__: what it leaves alone, and what it hands to get_chunks *)

Section InitMore.
Context {D : Type}.
Implicit Types (s : Store D) (level : OctreeLevel) (a : ref) (c : Corners).
Local Open Scope Q_scope.

(** X9: constructing an intersection changes no tile grid, no chunk object
    and no numpy buffer that existed; the buffer behind [corners_2d] is a
    new one, which did not exist before the call. *)
Theorem init_changes_nothing_existing level a s c :
  arrays s !! a = Some c ->
  exists self s',
    __init__ level a s = (Py.Ok self, s') /\
    grids s' = grids s /\
    heap s' = heap s /\
    (forall b x, arrays s !! b = Some x -> arrays s' !! b = Some x) /\
    arrays s !! corners_2d self = None /\
    is_Some (arrays s' !! corners_2d self).
Proof.
  intros Ha. pose proof (init_spec level a s c Ha) as H. cbv zeta in H.
  eexists; eexists. split; [exact H|]. cbn [grids heap arrays corners_2d].
  split; [reflexivity|]. split; [reflexivity|].
  split; [intros b x Hb; now apply lookup_app_l_Some|].
  split; [apply lookup_ge_None; lia|].
  eexists. now apply list_lookup_middle.
Qed.

(** X10: whatever the corners, ordered or not, inside the image or far
    outside, the ranges of a constructed intersection lie within the grid:
    a visible tile always has [0 <= row < rows] and [0 <= col < cols], and
    on a grid that matches [shape_in_tiles], [get_chunks] never raises. *)
Theorem init_ranges_within_grid level a s c (grid : TileGrid D) :
  arrays s !! a = Some c ->
  0 < scale (info level) ->
  (0 < tile_size (image_config (info level)))%Z ->
  (1 <= fst (shape_in_tiles (info level)))%Z ->
  (1 <= snd (shape_in_tiles (info level)))%Z ->
  grids s !! tiles level = Some grid ->
  grid_matches grid (shape_in_tiles (info level)) ->
  exists self s',
    __init__ level a s = (Py.Ok self, s') /\
    (forall row col,
        is_visible self row col = true ->
        (0 <= row < fst (shape_in_tiles (info level)))%Z /\
        (0 <= col < snd (shape_in_tiles (info level)))%Z) /\
    forall slice_id, exists chunks s'',
        get_chunks self slice_id s' = (Py.Ok chunks, s'').
Proof.
  intros Ha _ _ Hn0 Hn1 Hg Hgrid.
  pose proof (init_spec level a s c Ha) as H. cbv zeta in H.
  set (rspan := div2 (column 0 c) (scale (info level))) in *.
  set (cspan := div2 (column 1 c) (scale (info level))) in *.
  assert (Hin : forall row col,
             in_range row (row_range (info level) rspan) ->
             in_range col (column_range (info level) cspan) ->
             (0 <= row < fst (shape_in_tiles (info level)))%Z /\
             (0 <= col < snd (shape_in_tiles (info level)))%Z).
  { intros row col Hrow Hcol.
    destruct (tile_range_bounds (info level) rspan _ Hn0).
    destruct (tile_range_bounds (info level) cspan _ Hn1).
    unfold in_range, row_range, column_range in Hrow, Hcol. lia. }
  eexists; eexists. split; [exact H|]. split.
  - intros row col Hvis. apply is_visible_iff in Hvis.
    cbn [_row_range _col_range] in Hvis. destruct Hvis. now apply Hin.
  - intros slice_id.
    match goal with |- context [get_chunks ?self0 _ ?s0] =>
      destruct (get_chunks_total self0 slice_id s0) as (chunks & s2 & Hrun & _)
    end; [|eauto].
    cbn [_row_range _col_range]. intros row col Hrow Hcol.
    destruct (Hin row col Hrow Hcol).
    eapply tile_at_in_grid; [exact Hg | exact Hgrid | assumption | assumption].
Qed.

Lemma clip_mono (x y lo hi : Q) : x <= y -> clip x lo hi <= clip y lo hi.
Proof.
  intros H. unfold clip.
  apply Q.min_le_compat_r. now apply Q.max_le_compat_r.
Qed.

(** X11: [normalized_range] keeps the order of the corners, and a view
    that covers the whole base image along an axis gets the full range
    [[0, 1]] on it. *)
Theorem normalized_range_ordered level a s c :
  arrays s !! a = Some c ->
  (0 < fst (base_shape (image_config (info level))))%Z ->
  (0 < snd (base_shape (image_config (info level))))%Z ->
  exists self s',
    __init__ level a s = (Py.Ok self, s') /\
    (fst (column 0 c) <= snd (column 0 c) ->
     fst (fst (normalized_range self)) <= snd (fst (normalized_range self))) /\
    (fst (column 1 c) <= snd (column 1 c) ->
     fst (snd (normalized_range self)) <= snd (snd (normalized_range self))) /\
    (fst (column 0 c) <= 0 ->
     inject_Z (fst (base_shape (image_config (info level)))) <= snd (column 0 c) ->
     fst (fst (normalized_range self)) == 0 /\
     snd (fst (normalized_range self)) == 1) /\
    (fst (column 1 c) <= 0 ->
     inject_Z (snd (base_shape (image_config (info level)))) <= snd (column 1 c) ->
     fst (snd (normalized_range self)) == 0 /\
     snd (snd (normalized_range self)) == 1).
Proof.
  intros Ha Hb0 Hb1. pose proof (init_spec level a s c Ha) as H.
  cbv zeta in H. eexists; eexists. split; [exact H|].
  cbn [normalized_range fst snd]. unfold clip2, div2. cbn [fst snd].
  assert (Hpos : forall b : Z, (0 < b)%Z -> 0 < inject_Z b).
  { intros b Hb. change 0 with (inject_Z 0). now rewrite <- Zlt_Qlt. }
  assert (Hdiv : forall (x y : Q) (b : Z), (0 < b)%Z -> x <= y ->
                                           x / inject_Z b <= y / inject_Z b).
  { intros x y b Hb Hxy. apply div_scale_mono; [now apply Hpos | exact Hxy]. }
  assert (Hlow : forall (x : Q) (b : Z), (0 < b)%Z -> x <= 0 ->
                                         clip (x / inject_Z b) 0 1 == 0).
  { intros x b Hb Hx. unfold clip.
    assert (Hq : x / inject_Z b <= 0).
    { apply Qle_shift_div_r; [now apply Hpos | now rewrite Qmult_0_l]. }
    rewrite (Q.max_r _ _ Hq). apply Q.min_l. discriminate. }
  assert (Hhigh : forall (x : Q) (b : Z), (0 < b)%Z -> inject_Z b <= x ->
                                          clip (x / inject_Z b) 0 1 == 1).
  { intros x b Hb Hx. unfold clip.
    assert (Hq : 1 <= x / inject_Z b).
    { apply Qle_shift_div_l; [now apply Hpos | now rewrite Qmult_1_l]. }
    assert (H0 : 0 <= x / inject_Z b).
    { eapply Qle_trans; [|exact Hq]. discriminate. }
    rewrite (Q.max_l _ _ H0). now apply Q.min_r. }
  split; [intros Ho; now apply clip_mono, Hdiv|].
  split; [intros Ho; now apply clip_mono, Hdiv|].
  split; intros Hl Hu; split; auto.
Qed.

End InitMore.

(** ** Visibility and overlap *)

Section VisibleOverlap.
Context {D : Type}.
Implicit Types (s : Store D) (level : OctreeLevel) (a : ref) (c : Corners).
Local Open Scope Q_scope.


End VisibleOverlap.

(** ** get_chunks: one chunk object per tile *)

Section OneChunkPerTile.
Context {D : Type}.
Implicit Types (s : Store D) (self : OctreeIntersection).

(** The loop body on a raw tile, cell by cell. *)
Lemma chunk_at_raw self slice_id scale_vec y row x col s (d : D) :
  tile_at s (tiles (level self)) row col = Some (RawData d) ->
  let s' := snd (chunk_at self slice_id scale_vec y row x col s) in
  length (heap s') = S (length (heap s)) /\
  tile_at s' (tiles (level self)) row col = Some (Chunk (length (heap s))) /\
  forall g' row' col',
    tile_at s' g' row' col' = tile_at s g' row' col' \/
    tile_at s' g' row' col' = Some (Chunk (length (heap s))).
Proof.
  intros Et.
  pose proof (tiles_getitem_spec (tiles (level self)) row col s) as Hget.
  rewrite Et in Hget. unfold chunk_at, bind. rewrite Hget.
  set (c := Build_OctreeChunk d _ _).
  destruct (tiles_setitem_spec (tiles (level self)) row col
              (snd (new_chunk c s)) (RawData d) (Chunk (length (heap s))))
    as (s' & Hset & _ & Hh & Hnew & Hothers).
  { rewrite tile_at_new_chunk. exact Et. }
  simpl in *. rewrite Hset. simpl.
  split; [rewrite Hh, length_app; simpl; lia|]. split; [exact Hnew|].
  intros g' row' col'.
  destruct (Hothers g' row' col') as [E | [_ E]]; [left | right]; exact E.
Qed.

Lemma chunk_at_not_raw self slice_id scale_vec y row x col s :
  (forall d, tile_at s (tiles (level self)) row col <> Some (RawData d)) ->
  snd (chunk_at self slice_id scale_vec y row x col s) = s.
Proof.
  intros Hnot.
  pose proof (chunk_at_spec self slice_id scale_vec y row x col s) as H.
  destruct (tile_at s (tiles (level self)) row col) as [[d|r]|].
  - now destruct (Hnot d).
  - now rewrite H.
  - destruct H as [e ->]. reflexivity.
Qed.

Lemma chunk_at_one_per_tile self slice_id scale_vec y row x col s :
  (0 <= row)%Z -> (0 <= col)%Z ->
  chunks_allocated s /\ chunks_distinct s ->
  chunks_allocated (snd (chunk_at self slice_id scale_vec y row x col s)) /\
  chunks_distinct (snd (chunk_at self slice_id scale_vec y row x col s)).
Proof.
  intros Hrow Hcol [Hal Hdi].
  destruct (tile_at s (tiles (level self)) row col) as [[d|r0]|] eqn:Et;
    [|rewrite chunk_at_not_raw by (intros d; rewrite Et; discriminate);
      now split ..].
  destruct (chunk_at_raw self slice_id scale_vec y row x col s d Et)
    as (Hlen & Hnew & Hcells).
  pose proof (chunk_at_frame self slice_id scale_vec y row x col s) as Hframe.
  set (s' := snd (chunk_at self slice_id scale_vec y row x col s)) in *.
  split.
  - intros g' row' col' r Hr. rewrite Hlen.
    destruct (Hcells g' row' col') as [E|E]; rewrite E in Hr.
    + apply Hal in Hr. lia.
    + injection Hr as <-. lia.
  - assert (Hold : forall g' row' col' r,
               (0 <= row')%Z -> (0 <= col')%Z ->
               tile_at s' g' row' col' = Some (Chunk r) ->
               (g', row', col') = (tiles (level self), row, col)
               /\ r = length (heap s)
               \/ tile_at s g' row' col' = Some (Chunk r)
                  /\ (r < length (heap s))%nat).
    { intros g' row' col' r Hr' Hc' Hr.
      destruct (decide ((g', row', col') = (tiles (level self), row, col)))
        as [E|Hne].
      - left. split; [exact E|]. injection E as -> -> ->.
        rewrite Hnew in Hr. now injection Hr.
      - right. rewrite Hframe in Hr; [split; [exact Hr | eapply Hal; exact Hr]|
                                       assumption | assumption |].
        destruct (decide (g' = tiles (level self))) as [->|]; [|now left].
        right. repeat split; try assumption. congruence. }
    intros g1 row1 col1 g2 row2 col2 r Hr1 Hc1 Hr2 Hc2 H1 H2.
    destruct (Hold _ _ _ _ Hr1 Hc1 H1) as [[E1 N1]|[O1 L1]];
      destruct (Hold _ _ _ _ Hr2 Hc2 H2) as [[E2 N2]|[O2 L2]].
    + congruence.
    + lia.
    + lia.
    + exact (Hdi _ _ _ _ _ _ _ Hr1 Hc1 Hr2 Hc2 O1 O2).
Qed.

Lemma for_cols_one_per_tile self slice_id scale_vec scaled_size y row cs x
    chunks s :
  (0 <= row)%Z -> List.Forall (fun col => (0 <= col)%Z) cs ->
  chunks_allocated s /\ chunks_distinct s ->
  chunks_allocated
    (snd (for_cols self slice_id scale_vec scaled_size y row cs x chunks s)) /\
  chunks_distinct
    (snd (for_cols self slice_id scale_vec scaled_size y row cs x chunks s)).
Proof.
  intros Hrow Hcs. revert x chunks s.
  induction Hcs as [|col cs Hcol _ IH]; intros x chunks s Hinv; [exact Hinv|].
  simpl. unfold bind.
  pose proof (chunk_at_one_per_tile self slice_id scale_vec y row x col s
                Hrow Hcol Hinv) as Hstep.
  destruct (chunk_at self slice_id scale_vec y row x col s) as [[r|e] s1];
    [|exact Hstep].
  apply IH. exact Hstep.
Qed.

Lemma for_rows_one_per_tile self slice_id scale_vec scaled_size rs y chunks s :
  List.Forall (fun row => (0 <= row)%Z) rs ->
  List.Forall (fun col => (0 <= col)%Z) (Py.elements (_col_range self)) ->
  chunks_allocated s /\ chunks_distinct s ->
  chunks_allocated
    (snd (for_rows self slice_id scale_vec scaled_size rs y chunks s)) /\
  chunks_distinct
    (snd (for_rows self slice_id scale_vec scaled_size rs y chunks s)).
Proof.
  intros Hrs Hcs. revert y chunks s.
  induction Hrs as [|row rs Hrow _ IH]; intros y chunks s Hinv; [exact Hinv|].
  simpl. unfold bind.
  match goal with |- context [for_cols ?a ?b ?c ?d ?e ?f ?h ?i ?j s] =>
    pose proof (for_cols_one_per_tile a b c d e f h i j s Hrow Hcs Hinv)
      as Hstep;
    destruct (for_cols a b c d e f h i j s) as [[out|e'] s1] end;
    [|exact Hstep].
  apply IH. exact Hstep.
Qed.

(** X14: [get_chunks] keeps one chunk object per tile.  If every chunk
    reference in the grids is a live object and no object is held by two
    cells, the same is true after a call (returning or raising) of an
    intersection whose ranges start at 0 or above; so the chunks returned
    for two different tiles are different objects. *)
Theorem get_chunks_one_chunk_per_tile self slice_id s :
  (0 <= Py.start (_row_range self))%Z ->
  (0 <= Py.start (_col_range self))%Z ->
  chunks_allocated s -> chunks_distinct s ->
  chunks_allocated (snd (get_chunks self slice_id s)) /\
  chunks_distinct (snd (get_chunks self slice_id s)).
Proof.
  intros Hr Hc Hal Hdi. unfold get_chunks.
  apply for_rows_one_per_tile; [| |split; assumption];
    apply elements_nonneg; assumption.
Qed.

End OneChunkPerTile.

(** ** The further properties at concrete inputs *)

Lemma raw_grid_tile_at {D} (arr : list Corners) (rows cols : nat)
    (payload : nat -> nat -> D) (h : list (OctreeChunk D))
    (g : ref) (row col : Z) (t : Tile D) :
  tile_at (Build_Store arr [raw_grid rows cols payload] h) g row col = Some t ->
  exists d, t = RawData d.
Proof.
  unfold tile_at. simpl. destruct g as [|g]; simpl; [|discriminate].
  destruct (Py.getitem (raw_grid rows cols payload) row) as [line|] eqn:Er;
    [|discriminate].
  intros Ec.
  apply getitem_Some in Er as [_ Er], Ec as [_ Ec].
  apply list_elem_of_lookup_2, list_elem_of_In in Er, Ec.
  unfold raw_grid in Er. apply in_map_iff in Er as (r & <- & _).
  apply in_map_iff in Ec as (c & <- & _). eauto.
Qed.

Lemma raw_grid_one_per_tile {D} (arr : list Corners) (rows cols : nat)
    (payload : nat -> nat -> D) (h : list (OctreeChunk D)) :
  chunks_allocated (Build_Store arr [raw_grid rows cols payload] h) /\
  chunks_distinct (Build_Store arr [raw_grid rows cols payload] h).
Proof.
  split.
  - intros g row col r H. apply raw_grid_tile_at in H as [d H]. discriminate.
  - intros g row col g' row' col' r _ _ _ _ H.
    apply raw_grid_tile_at in H as [d H]. discriminate.
Qed.

Lemma tile_range_monotone_witness :
  let info := scenario_info 1 in
  let span := (50, 125)%Q in
  let span' := (0, 250)%Q in
  (0 < tile_size (image_config info))%Z /\
  (1 <= 5)%Z /\
  (fst span' <= fst span)%Q /\
  (snd span <= snd span')%Q /\
  (Py.start (tile_range info span' 5) <= Py.start (tile_range info span 5))%Z /\
  (Py.stop (tile_range info span 5) <= Py.stop (tile_range info span' 5))%Z.
Proof.
  intros info span span'.
  assert (H1 : (0 < tile_size (image_config info))%Z) by (simpl; lia).
  assert (H2 : (1 <= 5)%Z) by lia.
  assert (H3 : (fst span' <= fst span)%Q) by (unfold Qle; simpl; lia).
  assert (H4 : (snd span <= snd span')%Q) by (unfold Qle; simpl; lia).
  destruct (tile_range_monotone info span span' 5 H1 H2 H3 H4) as (Hs & He & _).
  exact (conj H1 (conj H2 (conj H3 (conj H4 (conj Hs He))))).
Defined.

Lemma tile_range_inverted_empty_witness :
  let info := scenario_info 1 in
  let span := (350, 100)%Q in
  (0 < tile_size (image_config info))%Z /\
  (1 <= 5)%Z /\
  (0 <= snd span)%Q /\
  (snd span + inject_Z 2 * inject_Z (tile_size (image_config info))
   <= fst span)%Q /\
  (fst span < inject_Z 5 * inject_Z (tile_size (image_config info)))%Q /\
  Py.elements (tile_range info span 5) = [].
Proof.
  intros info span.
  assert (H1 : (0 < tile_size (image_config info))%Z) by (simpl; lia).
  assert (H2 : (1 <= 5)%Z) by lia.
  assert (H3 : (0 <= snd span)%Q) by (unfold Qle; simpl; lia).
  assert (H4 : (snd span + inject_Z 2 * inject_Z (tile_size (image_config info))
                <= fst span)%Q) by (unfold Qle; simpl; lia).
  assert (H5 : (fst span
                < inject_Z 5 * inject_Z (tile_size (image_config info)))%Q)
    by (unfold Qlt; simpl; lia).
  exact (conj H1 (conj H2 (conj H3 (conj H4 (conj H5
           (proj2 (tile_range_inverted_empty info span 5 H1 H2 H3 H4 H5))))))).
Defined.


Lemma get_chunks_writes_only_visible_witness :
  let s := scenario_store (fun _ _ => tt) in
  (0 <= Py.start (_row_range scenario_view))%Z /\
  (0 <= Py.start (_col_range scenario_view))%Z /\
  forall row col, (0 <= row)%Z -> (0 <= col)%Z ->
                  is_visible scenario_view row col = false ->
                  tile_at (snd (get_chunks scenario_view 7 s)) 0%nat row col
                  = tile_at s 0%nat row col.
Proof.
  intros s.
  assert (H1 : (0 <= Py.start (_row_range scenario_view))%Z) by (simpl; lia).
  assert (H2 : (0 <= Py.start (_col_range scenario_view))%Z) by (simpl; lia).
  exact (conj H1 (conj H2
           (proj1 (get_chunks_writes_only_visible scenario_view 7 s H1 H2)))).
Defined.

Lemma get_chunks_builds_witness :
  let s := scenario_store (fun _ _ => tt) in
  let s1 := snd (get_chunks scenario_view 7 s) in
  let ch := Build_OctreeChunk tt (Build_OctreeLocation 7 1 0 1)
                              (Build_OctreeChunkGeom (200, 0)%Q (2, 2)%Q) in
  get_chunks scenario_view 7 s = (Py.Ok [0; 1; 2; 3]%nat, s1) /\
  (length (heap s) <= 1)%nat /\
  heap s1 !! 1%nat = Some ch /\
  exists row col d,
    in_range row (_row_range scenario_view) /\
    in_range col (_col_range scenario_view) /\
    tile_at s 0%nat row col = Some (RawData d) /\
    tile_at s1 0%nat row col = Some (Chunk 1%nat) /\
    (fst (geom_pos (chunk_geom ch)) == inject_Z col * (inject_Z 100 * 2))%Q.
Proof.
  intros s s1 ch.
  assert (H1 : get_chunks scenario_view 7 s = (Py.Ok [0; 1; 2; 3]%nat, s1))
    by reflexivity.
  assert (H2 : (length (heap s) <= 1)%nat) by (simpl; lia).
  assert (H3 : heap s1 !! 1%nat = Some ch) by reflexivity.
  destruct (get_chunks_builds scenario_view 7 s _ s1 H1 1%nat ch H2 H3)
    as (row & col & d & Hr & Hc & _ & Hraw & Hnew & _ & _ & _ & Hx & _).
  exact (conj H1 (conj H2 (conj H3
           (ex_intro _ row (ex_intro _ col (ex_intro _ d
              (conj Hr (conj Hc (conj Hraw (conj Hnew Hx)))))))))).
Defined.

Lemma get_chunks_returns_iff_witness :
  let s := scenario_store (fun _ _ => tt) in
  (exists chunks s1, get_chunks scenario_view 7 s = (Py.Ok chunks, s1)) /\
  forall row col,
    in_range row (_row_range scenario_view) ->
    in_range col (_col_range scenario_view) ->
    is_Some (tile_at s 0%nat row col).
Proof.
  intros s.
  assert (H1 : exists chunks s1,
             get_chunks scenario_view 7 s = (Py.Ok chunks, s1))
    by (exists [0; 1; 2; 3]%nat, (snd (get_chunks scenario_view 7 s));
        reflexivity).
  exact (conj H1
           (proj1 (proj1 (get_chunks_returns_iff scenario_view 7 s)) H1)).
Defined.

Lemma empty_range_no_chunks_witness :
  let s := scenario_store (fun _ _ => tt) in
  ((Py.stop (_row_range empty_view) <= Py.start (_row_range empty_view))%Z \/
   (Py.stop (_col_range empty_view) <= Py.start (_col_range empty_view))%Z) /\
  get_chunks empty_view 7 s = (Py.Ok [], s).
Proof.
  intros s.
  assert (H1 : (Py.stop (_row_range empty_view)
                <= Py.start (_row_range empty_view))%Z \/
               (Py.stop (_col_range empty_view)
                <= Py.start (_col_range empty_view))%Z)
    by (left; simpl; lia).
  exact (conj H1 (proj1 (empty_range_no_chunks empty_view 7 s H1))).
Defined.

Lemma slice_id_only_at_creation_witness :
  let s := scenario_store (fun _ _ => tt) in
  let s1 := snd (get_chunks scenario_view 7 s) in
  get_chunks scenario_view 7 s = (Py.Ok [0; 1; 2; 3]%nat, s1) /\
  get_chunks scenario_view 8 s1 = (Py.Ok [0; 1; 2; 3]%nat, s1).
Proof.
  intros s s1.
  assert (H1 : get_chunks scenario_view 7 s = (Py.Ok [0; 1; 2; 3]%nat, s1))
    by reflexivity.
  exact (conj H1 (slice_id_only_at_creation scenario_view 7 s _ s1 H1 8%Z)).
Defined.

Lemma overlapping_views_share_chunks_witness :
  let s := scenario_store (fun _ _ => tt) in
  let s1 := snd (get_chunks scenario_view 7 s) in
  let s2 := snd (get_chunks shifted_view 8 s1) in
  tiles (level shifted_view) = tiles (level scenario_view) /\
  get_chunks scenario_view 7 s = (Py.Ok [0; 1; 2; 3]%nat, s1) /\
  get_chunks shifted_view 8 s1 = (Py.Ok [3; 4; 5; 6]%nat, s2) /\
  (in_range 1 (_row_range scenario_view) /\
   in_range 1 (_col_range scenario_view) /\
   in_range 1 (_row_range shifted_view) /\
   in_range 1 (_col_range shifted_view)) /\
  exists r,
    In r [0; 1; 2; 3]%nat /\ In r [3; 4; 5; 6]%nat /\
    tile_at s2 0%nat 1 1 = Some (Chunk r).
Proof.
  intros s s1 s2.
  assert (H1 : tiles (level shifted_view) = tiles (level scenario_view))
    by reflexivity.
  assert (H2 : get_chunks scenario_view 7 s = (Py.Ok [0; 1; 2; 3]%nat, s1))
    by reflexivity.
  assert (H3 : get_chunks shifted_view 8 s1 = (Py.Ok [3; 4; 5; 6]%nat, s2))
    by reflexivity.
  assert (R1 : in_range 1 (_row_range scenario_view))
    by (unfold in_range; simpl; lia).
  assert (R2 : in_range 1 (_col_range scenario_view))
    by (unfold in_range; simpl; lia).
  assert (R3 : in_range 1 (_row_range shifted_view))
    by (unfold in_range; simpl; lia).
  assert (R4 : in_range 1 (_col_range shifted_view))
    by (unfold in_range; simpl; lia).
  destruct (proj1 (overlapping_views_share_chunks
                     scenario_view shifted_view 7 8 s _ s1 _ s2 H1 H2 H3)
              1%Z 1%Z R1 R2 R3 R4)
    as (r & Hin1 & Hin2 & _ & Ht & _).
  exact (conj H1 (conj H2 (conj H3 (conj (conj R1 (conj R2 (conj R3 R4)))
           (ex_intro _ r (conj Hin1 (conj Hin2 Ht))))))).
Defined.

Lemma init_changes_nothing_existing_witness :
  let s := scenario_store (fun _ _ => tt) in
  arrays s !! 0%nat = Some ((0, 0), (250, 250))%Q /\
  exists self s',
    __init__ (scenario_level 1) 0%nat s = (Py.Ok self, s') /\
    grids s' = grids s /\ heap s' = heap s /\
    arrays s !! corners_2d self = None.
Proof.
  intros s.
  assert (H1 : arrays s !! 0%nat = Some ((0, 0), (250, 250))%Q) by reflexivity.
  destruct (init_changes_nothing_existing (scenario_level 1) 0%nat s _ H1)
    as (self & s' & Hrun & Hg & Hh & _ & Hfresh & _).
  exact (conj H1 (ex_intro _ self (ex_intro _ s'
           (conj Hrun (conj Hg (conj Hh Hfresh)))))).
Defined.

Lemma init_ranges_within_grid_witness :
  let level := scenario_level 1 in
  let c := ((100, 100), (100, 100))%Q in
  (arrays point_store !! 0%nat = Some c /\
   (0 < scale (info level))%Q /\
   (0 < tile_size (image_config (info level)))%Z /\
   (1 <= fst (shape_in_tiles (info level)))%Z /\
   (1 <= snd (shape_in_tiles (info level)))%Z /\
   grids point_store !! tiles level = Some (raw_grid 5 5 (fun _ _ => tt)) /\
   grid_matches (raw_grid 5 5 (fun _ _ => tt)) (shape_in_tiles (info level))) /\
  exists self s',
    __init__ level 0%nat point_store = (Py.Ok self, s') /\
    forall slice_id, exists chunks s'',
        get_chunks self slice_id s' = (Py.Ok chunks, s'').
Proof.
  intros level c.
  assert (H1 : arrays point_store !! 0%nat = Some c) by reflexivity.
  assert (H4 : (0 < scale (info level))%Q) by (unfold Qlt; simpl; lia).
  assert (H5 : (0 < tile_size (image_config (info level)))%Z) by (simpl; lia).
  assert (H6 : (1 <= fst (shape_in_tiles (info level)))%Z) by (simpl; lia).
  assert (H7 : (1 <= snd (shape_in_tiles (info level)))%Z) by (simpl; lia).
  assert (H8 : grids point_store !! tiles level
               = Some (raw_grid 5 5 (fun _ _ => tt))) by reflexivity.
  assert (H9 : grid_matches (raw_grid 5 5 (fun _ _ => tt))
                            (shape_in_tiles (info level)))
    by (split; [reflexivity | repeat constructor]).
  destruct (init_ranges_within_grid level 0%nat point_store c _
              H1 H4 H5 H6 H7 H8 H9)
    as (self & s' & Hrun & _ & Hchunks).
  exact (conj (conj H1 (conj H4 (conj H5 (conj H6 (conj H7 (conj H8 H9))))))
           (ex_intro _ self (ex_intro _ s' (conj Hrun Hchunks)))).
Defined.

Lemma normalized_range_ordered_witness :
  let s := scenario_store (fun _ _ => tt) in
  let level := scenario_level 1 in
  arrays s !! 0%nat = Some ((0, 0), (250, 250))%Q /\
  (0 < fst (base_shape (image_config (info level))))%Z /\
  (0 < snd (base_shape (image_config (info level))))%Z /\
  (0 <= 250)%Q /\
  exists self s',
    __init__ level 0%nat s = (Py.Ok self, s') /\
    (fst (fst (normalized_range self)) <= snd (fst (normalized_range self)))%Q.
Proof.
  intros s level.
  assert (H1 : arrays s !! 0%nat = Some ((0, 0), (250, 250))%Q) by reflexivity.
  assert (H2 : (0 < fst (base_shape (image_config (info level))))%Z)
    by (simpl; lia).
  assert (H3 : (0 < snd (base_shape (image_config (info level))))%Z)
    by (simpl; lia).
  assert (H4 : (0 <= 250)%Q) by (unfold Qle; simpl; lia).
  destruct (normalized_range_ordered level 0%nat s _ H1 H2 H3)
    as (self & s' & Hrun & Hord & _).
  exact (conj H1 (conj H2 (conj H3 (conj H4
           (ex_intro _ self (ex_intro _ s' (conj Hrun (Hord H4)))))))).
Defined.

Lemma get_chunks_one_chunk_per_tile_witness :
  let s := scenario_store (fun _ _ => tt) in
  ((0 <= Py.start (_row_range scenario_view))%Z /\
   (0 <= Py.start (_col_range scenario_view))%Z /\
   chunks_allocated s /\ chunks_distinct s) /\
  chunks_allocated (snd (get_chunks scenario_view 7 s)) /\
  chunks_distinct (snd (get_chunks scenario_view 7 s)).
Proof.
  intros s.
  assert (H1 : (0 <= Py.start (_row_range scenario_view))%Z) by (simpl; lia).
  assert (H2 : (0 <= Py.start (_col_range scenario_view))%Z) by (simpl; lia).
  destruct (raw_grid_one_per_tile [((0, 0), (250, 250))%Q] 5 5
              (fun _ _ => tt) []) as [H3 H4].
  exact (conj (conj H1 (conj H2 (conj H3 H4)))
           (get_chunks_one_chunk_per_tile scenario_view 7 s H1 H2 H3 H4)).
Defined.


(** ** tile_range on a level without tiles *)

Section TileRangeDegenerate.
Local Open Scope Q_scope.
Variable info : OctreeLevelInfo.
Local Abbreviation ts := (tile_size (image_config info)).

Lemma clamp_collapsed (v hi : Q) : hi <= 0 -> _clamp v 0 hi == 0.
Proof.
  intros H. unfold _clamp, Py.max, Py.min. apply Q.max_r.
  eapply Qle_trans; [apply Q.le_min_r | exact H].
Qed.

(** X15: the lower bound wins the clamp: with [num_tiles] of 1, 0 or less,
    [tile_range] returns the one-tile range [[0, 1)] whatever the span, so
    a level with no tiles along an axis still gets tile 0 reported. *)
Theorem tile_range_without_tiles (span : Float2) (num_tiles : Z) :
  (0 < ts)%Z -> (num_tiles <= 1)%Z ->
  tile_range info span num_tiles = Py.Range 0 1 /\
  Py.elements (tile_range info span num_tiles) = [0%Z].
Proof.
  intros _ Hn.
  assert (Hhi : inject_Z (num_tiles - 1) <= 0).
  { change 0 with (inject_Z 0). rewrite <- Zle_Qle. lia. }
  assert (E : tile_range info span num_tiles = Py.Range 0 1).
  { unfold tile_range. cbn [fst snd]. f_equal.
    - rewrite int_floor by apply Q.le_max_r.
      now rewrite (Qfloor_comp _ _ (clamp_collapsed _ _ Hhi)).
    - rewrite int_floor.
      + rewrite Qfloor_succ.
        now rewrite (Qfloor_comp _ _ (clamp_collapsed _ _ Hhi)).
      + apply Qle_trans with (0 + 1); [discriminate|].
        apply Qplus_le_compat; [apply Q.le_max_r | apply Qle_refl]. }
  split; [exact E | now rewrite E].
Qed.

End TileRangeDegenerate.

Lemma tile_range_without_tiles_witness :
  let info := scenario_info 1 in
  (0 < tile_size (image_config info))%Z /\
  (0 <= 1)%Z /\
  tile_range info (300, 400)%Q 0 = Py.Range 0 1.
Proof.
  intros info.
  assert (H1 : (0 < tile_size (image_config info))%Z) by (simpl; lia).
  assert (H2 : (0 <= 1)%Z) by lia.
  exact (conj H1 (conj H2
           (proj1 (tile_range_without_tiles info (300, 400)%Q 0 H1 H2)))).
Defined.
